(** * demucs/pretrained.py: loading pretrained models

    A shallow embedding of [src/demucs/pretrained.py] and the properties of
    its catalog parser, its legacy URL builder and its legacy model
    factories.

    Conventions.
    - A Python [str] is a [string]; each [ascii] stands for one code point
      below 256.
    - A Python [dict] with string keys is a [gmap string _].
    - A function that can raise returns a [result]; a function that touches
      models, quantizers, files or the network runs in the monad [M], which
      threads a [world] (object store and log of collaborator calls) and
      keeps the world reached when an exception is raised. *)

From Stdlib Require Import ZArith Ascii DecimalString DecimalPos DecimalZ.
From stdpp Require Import gmap strings list fin_maps.

Local Open Scope Z_scope.

(** ** Exceptions and results *)

Inductive exn : Type :=
| ValueError (msg : string)
| KeyError (key : string)
| IndexError
| TypeError
| NameError
| AssertionError
| SystemExit            (* raised by [Dora.log.fatal] *)
| OSError               (* a file that cannot be read *)
| ModelLoadingError     (* raised by the repositories *)
| TransportError.       (* raised by the hash-checked download *)

Inductive result (A : Type) : Type :=
| Ok (a : A)
| Raise (e : exn).
Arguments Ok {A} a.
Arguments Raise {A} e.

(** ** Python string operations used by the module *)

Module PyStr.

(** [str.isspace] on the code points below 256. *)
Definition isspace (a : ascii) : bool :=
  let n := N_of_ascii a in
  ((9 <=? n) && (n <=? 13) || (28 <=? n) && (n <=? 32)
   || (n =? 133) || (n =? 160))%N.

Fixpoint lstrip (s : string) : string :=
  match s with
  | EmptyString => EmptyString
  | String a s' => if isspace a then lstrip s' else s
  end.

Fixpoint rstrip (s : string) : string :=
  match s with
  | EmptyString => EmptyString
  | String a s' =>
      match rstrip s' with
      | EmptyString => if isspace a then EmptyString else String a EmptyString
      | r => String a r
      end
  end.

(** [s.strip()] *)
Definition strip (s : string) : string := rstrip (lstrip s).

(** [s.startswith(p)] *)
Definition startswith (p s : string) : bool := String.prefix p s.

(** [s.split(sep)] for a one-character separator: never empty. *)
Fixpoint split (sep : ascii) (s : string) : list string :=
  match s with
  | EmptyString => [EmptyString]
  | String a s' =>
      if decide (a = sep) then EmptyString :: split sep s'
      else match split sep s' with
           | h :: t => String a h :: t
           | [] => [String a EmptyString]
           end
  end.

(** [s.split(sep, 1)]: at most one cut, at the first separator. *)
Fixpoint split1 (sep : ascii) (s : string) : list string :=
  match s with
  | EmptyString => [EmptyString]
  | String a s' =>
      if decide (a = sep) then [EmptyString; s']
      else match split1 sep s' with
           | h :: t => String a h :: t
           | [] => [String a EmptyString]
           end
  end.

(** [l[i]] on a list *)
Definition index {A} (l : list A) (i : nat) : result A :=
  match l !! i with
  | Some x => Ok x
  | None => Raise IndexError
  end.

(** [s[:n]] *)
Fixpoint slice_to (n : nat) (s : string) : string :=
  match n, s with
  | S n', String a s' => String a (slice_to n' s')
  | _, _ => EmptyString
  end.

(** [str(n)] for an [int] *)
Definition str (n : Z) : string := NilZero.string_of_int (Z.to_int n).

End PyStr.

(** ** The catalog of remote files (lines 28 and 48-62) *)

Definition ROOT_URL : string := "https://dl.fbaipublicfiles.com/demucs/mdx_final/".

(** The body of the [for] loop of [_parse_remote_files], over the lines that
    remain, with the loop variables [root] and [models]. *)
Fixpoint parse_lines (lines : list string) (root : string)
    (models : gmap string string) : result (gmap string string) :=
  match lines with
  | [] => Ok models
  | raw :: rest =>
      let line := PyStr.strip raw in
      if PyStr.startswith "#" line then parse_lines rest root models
      else if PyStr.startswith "root:" line then
        match PyStr.index (PyStr.split1 ":"%char line) 1 with
        | Ok p => parse_lines rest (PyStr.strip p) models
        | Raise e => Raise e
        end
      else
        match PyStr.index (PyStr.split1 "-"%char line) 0 with
        | Ok sig =>
            if decide (is_Some (models !! sig)) then Raise AssertionError
            else parse_lines rest root (<[sig := ROOT_URL +:+ root +:+ line]> models)
        | Raise e => Raise e
        end
  end.

(** [_parse_remote_files] applied to the text that [read_text()] returned. *)
Definition parse_remote_text (text : string) : result (gmap string string) :=
  parse_lines (PyStr.split "010"%char text) "" ∅.


(** ** The world the module acts on

    Models and quantizers are mutable Python objects; they live in an object
    store and are passed around by reference (their index in the store). The
    [log] records, in order, every call the module makes to a collaborator. *)

Inductive architecture : Type :=
| HDemucs (channels : Z)
| Demucs (channels : Z)
| ConvTasNet (X : Z)
| Other (description : string).   (* whatever a repository resolves a name to *)

(** The serialized parameters of a model; opaque to this module. *)
Record state_dict : Type := StateDict { payload : string }.

Record model : Type := Model {
  arch : architecture;
  sources : list string;
  training : bool;               (* [torch.nn.Module.training] *)
  weights : option state_dict;   (* the state applied by [set_state], if any *)
  hooks : list nat               (* quantizers whose runtime hooks are attached *)
}.

Record quantizer : Type := Quantizer {
  q_model : nat;
  group_size : Z;
  min_size : Z
}.

Inductive model_repo : Type :=
| RemoteRepo (models : gmap string string)
| LocalRepo (root : string).

Record bag_repo : Type := BagOnlyRepo { bag_root : string; bag_models : model_repo }.

Record any_repo : Type := AnyModelRepo { any_models : model_repo; any_bags : bag_repo }.

Inductive event : Type :=
| E_new_model (id : nat) (a : architecture)
| E_new_quantizer (q : nat) (model_id : nat) (group_size min_size : Z)
| E_read_text (path : string)
| E_is_dir (path : string)
| E_repo_get_model (name : string)
| E_download (url : string)
| E_set_state (model_id : nat) (q : option nat)
| E_detach (q : nat)
| E_eval (model_id : nat).

Record world : Type := World {
  heap : list model;
  quantizers : list quantizer;
  log : list event
}.

Definition empty_world : world := World [] [] [].

(** What the module does not decide itself: the file system, the
    repositories and the download service.  Every statement below ranges
    over all of them. *)
Record collaborators : Type := Collaborators {
  module_dir : string;                                  (* [Path(__file__).parent] *)
  read_text : string → option string;                   (* [Path.read_text]; [None]: the read fails *)
  is_dir : string → bool;                               (* [Path.is_dir] *)
  repo_get_model : any_repo → string → result model;    (* [AnyModelRepo.get_model] *)
  load_state_dict_from_url : string → option state_dict (* [torch.hub]; [None]: fetch or hash check fails *)
}.

(** ** The monad of the module's effects *)

Definition M (A : Type) : Type := world → result A * world.

Definition ret {A} (a : A) : M A := λ w, (Ok a, w).

Definition raise {A} (e : exn) : M A := λ w, (Raise e, w).

Definition bind {A B} (m : M A) (k : A → M B) : M B :=
  λ w, match m w with
       | (Ok a, w') => k a w'
       | (Raise e, w') => (Raise e, w')
       end.

Definition lift {A} (r : result A) : M A := λ w, (r, w).

Definition emit (e : event) : M unit :=
  λ w, (Ok tt, World (heap w) (quantizers w) (log w ++ [e])).

Notation "x <- m ;; k" := (bind m (λ x, k))
  (at level 100, m at next level, right associativity).
Notation "m ;; k" := (bind m (λ _, k))
  (at level 100, right associativity).

(** Allocation of a model object. *)
Definition alloc_model (m : model) : M nat :=
  λ w, (Ok (length (heap w)), World (heap w ++ [m]) (quantizers w) (log w)).

Definition update_model (id : nat) (f : model → model) : M unit :=
  λ w, (Ok tt, World (alter f id (heap w)) (quantizers w) (log w)).

Definition set_training (b : bool) (m : model) : model :=
  Model (arch m) (sources m) b (weights m) (hooks m).

Definition set_weights (s : state_dict) (m : model) : model :=
  Model (arch m) (sources m) (training m) (Some s) (hooks m).

Definition add_hook (q : nat) (m : model) : model :=
  Model (arch m) (sources m) (training m) (weights m) (q :: hooks m).

Definition remove_hook (q : nat) (m : model) : model :=
  Model (arch m) (sources m) (training m) (weights m) (filter (λ h, h ≠ q) (hooks m)).

(** ** Collaborators, at their interface *)

(** Modelled from the spec: the architectures ([.hdemucs], [.model],
    [.tasnet_v2]) are absent; they are "constructible, loadable targets".  A
    constructor returns a new module with no weights applied; like every
    [torch.nn.Module] it starts in training mode. *)
Definition construct (a : architecture) (srcs : list string) : M nat :=
  id <- alloc_model (Model a srcs true None []) ;;
  emit (E_new_model id a) ;;
  ret id.

(** Modelled from the spec: [model.eval()] switches the module into
    evaluation mode. *)
Definition eval (id : nat) : M unit :=
  emit (E_eval id) ;;
  update_model id (set_training false).

(** Modelled from the spec: the quantization codec ([diffq.DiffQuantizer]) is
    "an attach/detach pair": constructing it around a model attaches its
    runtime hooks to the model. *)
Definition DiffQuantizer (model_id : nat) (group_size min_size : Z) : M nat :=
  λ w,
    let q := length (quantizers w) in
    (Ok q,
     World (alter (add_hook q) model_id (heap w))
           (quantizers w ++ [Quantizer model_id group_size min_size])
           (log w ++ [E_new_quantizer q model_id group_size min_size])).

(** Modelled from the spec: [quantizer.detach()] removes the hooks of that
    quantizer from its model. *)
Definition detach (q : nat) : M unit :=
  λ w,
    (Ok tt,
     World (match quantizers w !! q with
            | Some qz => alter (remove_hook q) (q_model qz) (heap w)
            | None => heap w
            end)
           (quantizers w)
           (log w ++ [E_detach q])).

(** Modelled from the spec: [.utils.set_state] is absent; it "applies the
    record onto the model's parameters", through the quantizer when one is
    given. *)
Definition set_state (model_id : nat) (q : option nat) (s : state_dict) : M unit :=
  emit (E_set_state model_id q) ;;
  update_model model_id (set_weights s).

Section Module_body.

Context (c : collaborators).

Definition path_read_text (path : string) : M string :=
  emit (E_read_text path) ;;
  match read_text c path with
  | Some text => ret text
  | None => raise OSError
  end.

Definition path_is_dir (path : string) : M bool :=
  emit (E_is_dir path) ;;
  ret (is_dir c path).

(** [fatal] of [Dora.log] logs its message and exits the process. *)
Definition fatal {A} (msg : string) : M A := raise SystemExit.

Definition any_repo_get_model (r : any_repo) (name : string) : M nat :=
  emit (E_repo_get_model name) ;;
  m <- lift (repo_get_model c r name) ;;
  alloc_model m.

(** [torch.hub.load_state_dict_from_url(url, map_location='cpu', check_hash=True)] *)
Definition hub_load_state_dict_from_url (url : string) : M state_dict :=
  emit (E_download url) ;;
  match load_state_dict_from_url c url with
  | Some s => ret s
  | None => raise TransportError
  end.

(** The [/] of [pathlib]. *)
Definition path_join (a b : string) : string := a +:+ "/" +:+ b.

(** Line 29. *)
Definition REMOTE_ROOT : string := path_join (module_dir c) "remote".

(** Lines 31 and 106: the same list, bound twice. *)
Definition SOURCES : list string := ["drums"; "bass"; "other"; "vocals"].

(** Lines 48-62. *)
Definition _parse_remote_files (remote_file_list : string) : M (gmap string string) :=
  text <- path_read_text remote_file_list ;;
  lift (parse_remote_text text).

(** *** The legacy half of the module (lines 93-265) *)

(** Line 94. *)
Definition ROOT : string := "https://dl.fbaipublicfiles.com/demucs/v3.0/".

(** Lines 96-104. *)
Definition PRETRAINED_MODELS : gmap string string :=
  list_to_map
    [("demucs", "e07c671f");
     ("demucs48_hq", "28a1282c");
     ("demucs_extra", "3646af93");
     ("demucs_quantized", "07afea75");
     ("tasnet", "beb46fac");
     ("tasnet_extra", "df3777b2");
     ("demucs_unittest", "09ebc15f")].

(** Lines 109-120, with the table that the global [PRETRAINED_MODELS]
    holds when the function is called. *)
Definition get_url_in (table : gmap string string) (name : string) : result string :=
  match table !! name with
  | Some sig => Ok (ROOT +:+ name +:+ "-" +:+ PyStr.slice_to 8 sig +:+ ".th")
  | None => Raise (KeyError name)
  end.

Definition get_url (name : string) : result string :=
  get_url_in PRETRAINED_MODELS name.

(** Lines 122-132. *)
Definition is_pretrained (name : string) : bool :=
  bool_decide (is_Some (PRETRAINED_MODELS !! name)).

(** Lines 163-177.  [if quantizer:] holds for every quantizer object and
    fails for [None]. *)
Definition _load_state (name : string) (model_id : nat) (q : option nat) : M unit :=
  url <- lift (get_url name) ;;
  state <- hub_load_state_dict_from_url url ;;
  set_state model_id q state ;;
  match q with
  | Some qz => detach qz
  | None => ret tt
  end.

(** [sum([extra, quantized, hq])] *)
Definition flag_sum (extra quantized hq : bool) : Z :=
  Z.b2z extra + Z.b2z quantized + Z.b2z hq.

(** Lines 198-237. *)
Definition demucs (pretrained extra quantized hq : bool) (channels : Z) : M nat :=
  if negb pretrained && (extra || quantized || hq) then
    raise (ValueError "if extra or quantized is True, pretrained must be True.")
  else
    model <- construct (Demucs channels) SOURCES ;;
    if pretrained then
      let name := "demucs" in
      let name := if decide (channels ≠ 64) then name +:+ PyStr.str channels else name in
      if decide (flag_sum extra quantized hq > 1) then
        raise (ValueError "Only one of extra, quantized, hq, can be True.")
      else
        qn <- (if quantized then
                 q <- DiffQuantizer model 8 1 ;;
                 ret (Some q, name +:+ "_quantized")
               else ret (None, name)) ;;
        let '(quantizer, name) := qn in
        let name := if extra then name +:+ "_extra" else name in
        let name := if hq then name +:+ "_hq" else name in
        _load_state name model quantizer ;;
        ret model
    else ret model.

(** Lines 240-265. *)
Definition tasnet (pretrained extra : bool) : M nat :=
  if negb pretrained && extra then
    raise (ValueError "if extra is True, pretrained must be True.")
  else
    model <- construct (ConvTasNet 10) SOURCES ;;
    if pretrained then
      let name := "tasnet" in
      let name := if extra then "tasnet_extra" else name in
      _load_state name model None ;;
      ret model
    else ret model.

End Module_body.

(** *** The two definitions of [demucs_unittest] *)

Module Line34.
(** Lines 34-36: no parameter. *)
Definition demucs_unittest : M nat :=
  construct (HDemucs 4) SOURCES.
End Line34.

Module Line179.
(** Lines 179-195. *)
Definition demucs_unittest (c : collaborators) (pretrained : bool) : M nat :=
  model <- construct (Demucs 4) SOURCES ;;
  if pretrained then
    _load_state c "demucs_unittest" model None ;;
    ret model
  else ret model.
End Line179.

(** *** The module namespace

    A [def] statement binds its name when the module body reaches it, and a
    later [def] of the same name rebinds it.  A call looks the name up when
    the call is made, that is, after the whole module body has run. *)

Inductive function : Type :=
| def_demucs_unittest_34
| def_add_model_flags
| def__parse_remote_files
| def_get_model
| def_get_model_from_args
| def_get_url
| def_is_pretrained
| def_load_pretrained
| def__load_state
| def_demucs_unittest_179
| def_demucs
| def_tasnet.

(** The [def] statements of the module, in the order of the source. *)
Definition def_statements : list (string * function) :=
  [("demucs_unittest", def_demucs_unittest_34);
   ("add_model_flags", def_add_model_flags);
   ("_parse_remote_files", def__parse_remote_files);
   ("get_model", def_get_model);
   ("get_model_from_args", def_get_model_from_args);
   ("get_url", def_get_url);
   ("is_pretrained", def_is_pretrained);
   ("load_pretrained", def_load_pretrained);
   ("_load_state", def__load_state);
   ("demucs_unittest", def_demucs_unittest_179);
   ("demucs", def_demucs);
   ("tasnet", def_tasnet)].

Definition module_globals : gmap string function :=
  foldl (λ ns d, <[d.1 := d.2]> ns) ∅ def_statements.

(** The function that the global name [demucs_unittest] denotes at a call. *)
Definition global_demucs_unittest : option function :=
  Eval vm_compute in module_globals !! "demucs_unittest".

Section Callers.

Context (c : collaborators).

(** A call [demucs_unittest(...)], with the keyword [pretrained] given or
    not. *)
Definition call_demucs_unittest (pretrained : option bool) : M nat :=
  match global_demucs_unittest with
  | Some def_demucs_unittest_34 =>
      match pretrained with
      | None => Line34.demucs_unittest
      | Some _ => raise TypeError
      end
  | Some def_demucs_unittest_179 =>
      Line179.demucs_unittest c (default true pretrained)
  | Some _ => raise TypeError
  | None => raise NameError
  end.

(** Lines 64-84. *)
Definition get_model (name : string) (repo : option string) : M nat :=
  if decide (name = "demucs_unittest") then call_demucs_unittest None
  else
    repos <- match repo with
             | None =>
                 models <- _parse_remote_files c (path_join (REMOTE_ROOT c) "files.txt") ;;
                 let model_repo := RemoteRepo models in
                 ret (model_repo, BagOnlyRepo (REMOTE_ROOT c) model_repo)
             | Some repo =>
                 d <- path_is_dir c repo ;;
                 (if negb d then fatal (repo +:+ " must exist and be a directory.")
                  else ret tt) ;;
                 let model_repo := LocalRepo repo in
                 ret (model_repo, BagOnlyRepo repo model_repo)
             end ;;
    let any_repo := AnyModelRepo repos.1 repos.2 in
    model <- any_repo_get_model c any_repo name ;;
    eval model ;;
    ret model.

(** Lines 135-160. *)
Definition load_pretrained (name : string) : M nat :=
  if decide (name = "demucs") then demucs c true false false false 64
  else if decide (name = "demucs48_hq") then demucs c true false false true 48
  else if decide (name = "demucs_extra") then demucs c true true false false 64
  else if decide (name = "demucs_quantized") then demucs c true false true false 64
  else if decide (name = "demucs_unittest") then call_demucs_unittest (Some true)
  else if decide (name = "tasnet") then tasnet c true false
  else if decide (name = "tasnet_extra") then tasnet c true true
  else raise (ValueError ("Invalid pretrained name " +:+ name)).

End Callers.

(** ** Vocabulary of the statements *)

Definition nl : string := String "010"%char EmptyString.

(** The portion of [s] before the first [sep] (all of [s] when there is
    none), and the portion after it. *)
Fixpoint before_first (sep : ascii) (s : string) : string :=
  match s with
  | EmptyString => EmptyString
  | String a s' => if decide (a = sep) then EmptyString else String a (before_first sep s')
  end.

Fixpoint after_first (sep : ascii) (s : string) : string :=
  match s with
  | EmptyString => EmptyString
  | String a s' => if decide (a = sep) then s' else after_first sep s'
  end.

(** The three shapes of a manifest line. *)
Inductive line_kind : Type :=
| Comment
| RootDirective (path : string)
| Entry (short_name : string).

Definition classify (line : string) : line_kind :=
  if PyStr.startswith "#" line then Comment
  else if PyStr.startswith "root:" line then
    RootDirective (PyStr.strip (after_first ":" line))
  else Entry (before_first "-" line).

(** The path prefix in force after the lines [seen], starting from [root]. *)
Definition prefix_after (root : string) (seen : list string) : string :=
  foldl (λ r raw, match classify (PyStr.strip raw) with
                  | RootDirective p => p
                  | _ => r
                  end) root seen.

(** The short names of the entry lines, in order, with repetitions. *)
Fixpoint entry_names (lines : list string) : list string :=
  match lines with
  | [] => []
  | raw :: rest =>
      match classify (PyStr.strip raw) with
      | Entry n => n :: entry_names rest
      | _ => entry_names rest
      end
  end.

(** What a catalog [m] must be for the lines of a manifest. *)
Definition catalog_of (lines : list string) (m : gmap string string) : Prop :=
  (∀ i raw n, lines !! i = Some raw → classify (PyStr.strip raw) = Entry n →
     m !! n = Some (ROOT_URL +:+ prefix_after "" (take i lines) +:+ PyStr.strip raw))
  ∧ (∀ k, is_Some (m !! k) → k ∈ entry_names lines)
  ∧ size m = length (entry_names lines).

Module Claimed.

(** The parser as the specification words it: the rules are applied to
    each line as it stands in the manifest. *)
Fixpoint parse_lines (lines : list string) (root : string)
    (models : gmap string string) : result (gmap string string) :=
  match lines with
  | [] => Ok models
  | line :: rest =>
      match classify line with
      | Comment => parse_lines rest root models
      | RootDirective p => parse_lines rest p models
      | Entry n =>
          if decide (is_Some (models !! n)) then Raise AssertionError
          else parse_lines rest root (<[n := ROOT_URL +:+ root +:+ line]> models)
      end
  end.

Definition parse_catalog (text : string) : result (gmap string string) :=
  parse_lines (PyStr.split "010"%char text) "" ∅.

End Claimed.

(** The name of the artifact that [demucs] asks [_load_state] for. *)
Definition artifact_name (channels : Z) (extra quantized hq : bool) : string :=
  "demucs" +:+ (if decide (channels ≠ 64) then PyStr.str channels else "")
  +:+ (if quantized then "_quantized" else "")
  +:+ (if extra then "_extra" else "")
  +:+ (if hq then "_hq" else "").

(** The calls that [load_pretrained] can make. *)
Inductive builder_call : Type :=
| to_demucs (pretrained extra quantized hq : bool) (channels : Z)
| to_tasnet (pretrained extra : bool)
| to_demucs_unittest (pretrained : option bool).

Definition invoke (c : collaborators) (b : builder_call) : M nat :=
  match b with
  | to_demucs p e q h ch => demucs c p e q h ch
  | to_tasnet p e => tasnet c p e
  | to_demucs_unittest p => call_demucs_unittest c p
  end.

Definition legacy_dispatch : list (string * builder_call) :=
  [("demucs", to_demucs true false false false 64);
   ("demucs48_hq", to_demucs true false false true 48);
   ("demucs_extra", to_demucs true true false false 64);
   ("demucs_quantized", to_demucs true false true false 64);
   ("demucs_unittest", to_demucs_unittest (Some true));
   ("tasnet", to_tasnet true false);
   ("tasnet_extra", to_tasnet true true)].

Definition legacy_names : list string :=
  ["demucs"; "demucs48_hq"; "demucs_extra"; "demucs_quantized";
   "tasnet"; "tasnet_extra"; "demucs_unittest"].

(** The events that a run added to the log. *)
Definition new_events (before after : world) : list event :=
  drop (length (log before)) (log after).

(** A concrete environment: a two-line manifest, a repository that knows one
    signature, and a download service that always answers. *)
Definition sample_manifest : string :=
  "root: mdx/" +:+ nl +:+ "abcd1234-v1.th" +:+ nl.

Definition sample_collaborators : collaborators :=
  Collaborators "/opt/demucs"
    (λ _, Some sample_manifest)
    (λ _, true)
    (λ _ name,
       if decide (name = "abcd1234")
       then Ok (Model (Other "abcd1234") ["drums"; "bass"; "other"; "vocals"] true
                  (Some (StateDict "abcd1234-v1.th")) [])
       else Raise ModelLoadingError)
    (λ url, Some (StateDict url)).

(** ** Vocabulary of the further properties *)

(** The URLs that a run asked the download service for, in order. *)
Definition downloads (es : list event) : list string :=
  omap (λ e, match e with E_download url => Some url | _ => None end) es.

(** [w'] keeps every object and every log entry of [w], and holds at most
    one model more. *)
Definition extends (w w' : world) : Prop :=
  heap w `prefix_of` heap w'
  ∧ (length (heap w') ≤ S (length (heap w)))%nat
  ∧ quantizers w `prefix_of` quantizers w'
  ∧ log w `prefix_of` log w'.

(** The value of [pretrained] in a builder call. *)
Definition builder_pretrained (b : builder_call) : bool :=
  match b with
  | to_demucs p _ _ _ _ => p
  | to_tasnet p _ => p
  | to_demucs_unittest p => default true p
  end.

(** The manifest that [get_model] reads when no local repository is given. *)
Definition manifest_path (c : collaborators) : string :=
  path_join (REMOTE_ROOT c) "files.txt".

(** The repositories that [get_model] composes, for either source. *)
Definition composed_repo (c : collaborators) (source : string + gmap string string) : any_repo :=
  match source with
  | inl dir => AnyModelRepo (LocalRepo dir) (BagOnlyRepo dir (LocalRepo dir))
  | inr models => AnyModelRepo (RemoteRepo models) (BagOnlyRepo (REMOTE_ROOT c) (RemoteRepo models))
  end.

(** The architecture a builder call constructs, the artifact it asks
    [_load_state] for, and whether it wraps the model in a quantizer. *)
Definition builder_arch (b : builder_call) : architecture :=
  match b with
  | to_demucs _ _ _ _ channels => Demucs channels
  | to_tasnet _ _ => ConvTasNet 10
  | to_demucs_unittest _ => Demucs 4
  end.

Definition builder_artifact (b : builder_call) : string :=
  match b with
  | to_demucs _ extra quantized hq channels => artifact_name channels extra quantized hq
  | to_tasnet _ extra => if extra then "tasnet_extra" else "tasnet"
  | to_demucs_unittest _ => "demucs_unittest"
  end.

Definition builder_quantized (b : builder_call) : bool :=
  match b with
  | to_demucs _ _ quantized _ _ => quantized
  | _ => false
  end.

(** The flag combinations that pass the two checks of a builder. *)
Definition builder_valid (b : builder_call) : bool :=
  match b with
  | to_demucs pretrained extra quantized hq _ =>
      if pretrained then bool_decide (flag_sum extra quantized hq ≤ 1)
      else negb (extra || quantized || hq)
  | to_tasnet pretrained extra => pretrained || negb extra
  | to_demucs_unittest _ => true
  end.

(** What a builder call with a valid flag combination comes to. *)
Definition builder_outcome (c : collaborators) (b : builder_call) (w : world)
    : result nat * world :=
  let id := length (heap w) in
  let q := length (quantizers w) in
  let fresh := Model (builder_arch b) SOURCES true None [] in
  let l1 := log w ++ [E_new_model id (builder_arch b)] in
  if negb (builder_pretrained b) then
    (Ok id, World (heap w ++ [fresh]) (quantizers w) l1)
  else
    let wrapped := if builder_quantized b then add_hook q fresh else fresh in
    let qs := if builder_quantized b
              then quantizers w ++ [Quantizer id 8 1] else quantizers w in
    let l2 := if builder_quantized b
              then l1 ++ [E_new_quantizer q id 8 1] else l1 in
    match get_url (builder_artifact b) with
    | Raise e => (Raise e, World (heap w ++ [wrapped]) qs l2)
    | Ok url =>
        match load_state_dict_from_url c url with
        | None =>
            (Raise TransportError,
             World (heap w ++ [wrapped]) qs (l2 ++ [E_download url]))
        | Some s =>
            (Ok id,
             World (heap w ++ [set_weights s fresh]) qs
               (l2 ++ E_download url
                   :: E_set_state id (if builder_quantized b then Some q else None)
                   :: (if builder_quantized b then [E_detach q] else [])))
        end
    end.

(** The last two steps of [get_model]: the lookup in the composed
    repository and the switch to evaluation mode. *)
Definition resolved (c : collaborators) (r : any_repo) (name : string) (w : world)
    : result nat * world :=
  match repo_get_model c r name with
  | Raise e =>
      (Raise e, World (heap w) (quantizers w) (log w ++ [E_repo_get_model name]))
  | Ok m =>
      (Ok (length (heap w)),
       World (heap w ++ [set_training false m]) (quantizers w)
         (log w ++ [E_repo_get_model name; E_eval (length (heap w))]))
  end.

(** * Properties *)

(** ** Strings *)

Lemma split1_head sep s :
  PyStr.index (PyStr.split1 sep s) 0 = Ok (before_first sep s).
Proof.
  induction s as [|a s IH]; simpl; [done|].
  case_decide; [done|].
  unfold PyStr.index in IH.
  destruct (PyStr.split1 sep s) as [|h t]; simpl in *; [done|].
  by simplify_eq.
Qed.

Lemma split1_nonempty sep s : PyStr.split1 sep s ≠ [].
Proof. destruct s as [|a s]; simpl; [done|]. case_decide; [done|]. by destruct (PyStr.split1 sep s). Qed.

Lemma split1_second sep s :
  sep ∈ String.list_ascii_of_string s →
  PyStr.index (PyStr.split1 sep s) 1 = Ok (after_first sep s).
Proof.
  induction s as [|a s IH]; simpl; [by intros ?%elem_of_nil|].
  intros Hin. case_decide as Ha; [done|].
  apply elem_of_cons in Hin as [->|Hin]; [done|].
  specialize (IH Hin). unfold PyStr.index in *.
  pose proof (split1_nonempty sep s).
  by destruct (PyStr.split1 sep s) as [|h t].
Qed.

Lemma startswith_root_colon line :
  PyStr.startswith "root:" line = true →
  ":"%char ∈ String.list_ascii_of_string line.
Proof.
  unfold PyStr.startswith.
  destruct line as [|a1 [|a2 [|a3 [|a4 [|a5 rest]]]]]; cbn [String.prefix];
    repeat (destruct (ascii_dec _ _); cbn [String.prefix]); try done; subst.
  intros _. simpl. do 4 apply list_elem_of_further. apply list_elem_of_here.
Qed.

(** ** The loop of [_parse_remote_files], one line at a time *)

Lemma parse_lines_comment raw rest root models :
  classify (PyStr.strip raw) = Comment →
  parse_lines (raw :: rest) root models = parse_lines rest root models.
Proof.
  unfold classify. simpl.
  destruct (PyStr.startswith "#" _); [done|].
  by destruct (PyStr.startswith "root:" _).
Qed.

Lemma parse_lines_root raw rest root models p :
  classify (PyStr.strip raw) = RootDirective p →
  parse_lines (raw :: rest) root models = parse_lines rest p models.
Proof.
  unfold classify. simpl.
  destruct (PyStr.startswith "#" _); [done|].
  destruct (PyStr.startswith "root:" _) eqn:Hr; [|done].
  intros [= <-].
  by rewrite (split1_second _ _ (startswith_root_colon _ Hr)).
Qed.

Lemma parse_lines_entry raw rest root models n :
  classify (PyStr.strip raw) = Entry n →
  parse_lines (raw :: rest) root models =
    if decide (is_Some (models !! n)) then Raise AssertionError
    else parse_lines rest root (<[n := ROOT_URL +:+ root +:+ PyStr.strip raw]> models).
Proof.
  unfold classify. simpl.
  destruct (PyStr.startswith "#" _); [done|].
  destruct (PyStr.startswith "root:" _); [done|].
  intros [= <-]. by rewrite split1_head.
Qed.

Lemma parse_lines_mono lines : ∀ root models m,
  parse_lines lines root models = Ok m → models ⊆ m.
Proof.
  induction lines as [|raw rest IH]; intros root models m.
  - by intros [= ->].
  - destruct (classify (PyStr.strip raw)) as [|p|n] eqn:Hk.
    + rewrite (parse_lines_comment _ _ _ _ Hk). apply IH.
    + rewrite (parse_lines_root _ _ _ _ _ Hk). apply IH.
    + rewrite (parse_lines_entry _ _ _ _ _ Hk). case_decide as Hn; [done|].
      intros Hm%IH. etrans; [|exact Hm].
      apply insert_subseteq. by apply eq_None_not_Some.
Qed.

Lemma parse_lines_lookup lines : ∀ root models m i raw n,
  parse_lines lines root models = Ok m →
  lines !! i = Some raw → classify (PyStr.strip raw) = Entry n →
  m !! n = Some (ROOT_URL +:+ prefix_after root (take i lines) +:+ PyStr.strip raw).
Proof.
  induction lines as [|l rest IH]; intros root models m i raw n Hm Hi Hn; [done|].
  destruct i as [|i]; simpl in Hi.
  - simplify_eq. rewrite (parse_lines_entry _ _ _ _ _ Hn) in Hm.
    case_decide; [done|]. apply parse_lines_mono in Hm.
    eapply lookup_weaken; [|exact Hm]. simpl. apply lookup_insert_eq.
  - rewrite firstn_cons. unfold prefix_after. simpl.
    destruct (classify (PyStr.strip l)) as [|p|k] eqn:Hk.
    + rewrite (parse_lines_comment _ _ _ _ Hk) in Hm. by eapply IH.
    + rewrite (parse_lines_root _ _ _ _ _ Hk) in Hm. by eapply IH.
    + rewrite (parse_lines_entry _ _ _ _ _ Hk) in Hm. case_decide; [done|].
      by eapply IH.
Qed.

Lemma parse_lines_keys lines : ∀ root models m k,
  parse_lines lines root models = Ok m →
  is_Some (m !! k) → is_Some (models !! k) ∨ k ∈ entry_names lines.
Proof.
  induction lines as [|l rest IH]; intros root models m k Hm Hk.
  - left. by simplify_eq/=.
  - simpl. destruct (classify (PyStr.strip l)) as [|p|n] eqn:Hc.
    + rewrite (parse_lines_comment _ _ _ _ Hc) in Hm. by eapply IH.
    + rewrite (parse_lines_root _ _ _ _ _ Hc) in Hm. by eapply IH.
    + rewrite (parse_lines_entry _ _ _ _ _ Hc) in Hm. case_decide; [done|].
      destruct (IH _ _ _ _ Hm Hk) as [Hin|Hin].
      * apply lookup_insert_is_Some in Hin as [->|[_ Hin]]; [right; set_solver|by left].
      * right. set_solver.
Qed.

Lemma parse_lines_size lines : ∀ root models m,
  parse_lines lines root models = Ok m →
  size m = (size models + length (entry_names lines))%nat.
Proof.
  induction lines as [|l rest IH]; intros root models m Hm.
  - simplify_eq/=. lia.
  - simpl. destruct (classify (PyStr.strip l)) as [|p|n] eqn:Hc.
    + rewrite (parse_lines_comment _ _ _ _ Hc) in Hm. by eapply IH.
    + rewrite (parse_lines_root _ _ _ _ _ Hc) in Hm. by eapply IH.
    + rewrite (parse_lines_entry _ _ _ _ _ Hc) in Hm. case_decide as Hn; [done|].
      rewrite (IH _ _ _ Hm), map_size_insert_None; [simpl; lia|].
      by apply eq_None_not_Some.
Qed.

Lemma parse_lines_total lines : ∀ root models,
  NoDup (entry_names lines) →
  (∀ n, n ∈ entry_names lines → models !! n = None) →
  ∃ m, parse_lines lines root models = Ok m.
Proof.
  induction lines as [|l rest IH]; intros root models Hnd Hfresh; [by eexists|].
  simpl in Hnd, Hfresh. destruct (classify (PyStr.strip l)) as [|p|n] eqn:Hc.
  - rewrite (parse_lines_comment _ _ _ _ Hc). by apply IH.
  - rewrite (parse_lines_root _ _ _ _ _ Hc). by apply IH.
  - rewrite (parse_lines_entry _ _ _ _ _ Hc).
    apply NoDup_cons in Hnd as [Hn Hnd].
    case_decide as Hs.
    + rewrite Hfresh in Hs; [by destruct Hs|set_solver].
    + apply IH; [done|]. intros k Hk.
      rewrite lookup_insert_ne; [|set_solver]. apply Hfresh. set_solver.
Qed.

Lemma parse_lines_known lines : ∀ root models j raw n,
  lines !! j = Some raw → classify (PyStr.strip raw) = Entry n →
  is_Some (models !! n) →
  parse_lines lines root models = Raise AssertionError.
Proof.
  induction lines as [|l rest IH]; intros root models j raw n Hj Hn Hs; [done|].
  destruct j as [|j]; simpl in Hj.
  - simplify_eq. rewrite (parse_lines_entry _ _ _ _ _ Hn). by case_decide.
  - destruct (classify (PyStr.strip l)) as [|p|k] eqn:Hc.
    + rewrite (parse_lines_comment _ _ _ _ Hc). by eapply IH.
    + rewrite (parse_lines_root _ _ _ _ _ Hc). by eapply IH.
    + rewrite (parse_lines_entry _ _ _ _ _ Hc). case_decide; [done|].
      eapply IH; [done..|]. apply lookup_insert_is_Some.
      destruct (decide (k = n)); auto.
Qed.

Lemma parse_lines_repeat lines : ∀ root models i j ri rj n,
  (i < j)%nat →
  lines !! i = Some ri → lines !! j = Some rj →
  classify (PyStr.strip ri) = Entry n → classify (PyStr.strip rj) = Entry n →
  parse_lines lines root models = Raise AssertionError.
Proof.
  induction lines as [|l rest IH]; intros root models i j ri rj n Hij Hi Hj Hni Hnj; [done|].
  destruct j as [|j]; [lia|]. simpl in Hj.
  destruct i as [|i]; simpl in Hi.
  - simplify_eq. rewrite (parse_lines_entry _ _ _ _ _ Hni). case_decide; [done|].
    eapply parse_lines_known; [done..|]. rewrite lookup_insert_eq. by eexists.
  - assert (i < j)%nat by lia.
    destruct (classify (PyStr.strip l)) as [|p|k] eqn:Hc.
    + rewrite (parse_lines_comment _ _ _ _ Hc). by eapply IH.
    + rewrite (parse_lines_root _ _ _ _ _ Hc). by eapply IH.
    + rewrite (parse_lines_entry _ _ _ _ _ Hc). case_decide; [done|]. by eapply IH.
Qed.

(** ** The catalog parser *)

Lemma sample_manifest_lines :
  PyStr.split "010"%char sample_manifest = ["root: mdx/"; "abcd1234-v1.th"; ""].
Proof. vm_compute. reflexivity. Qed.

(** C3, as the claim words it, fails: the rules are not applied to the line
    as it stands in the manifest.  For the one-line manifest
    [" abcd1234-v1.th "] the rules as worded give an entry keyed by the
    portion of the line before the first '-', which is [" abcd1234"], with
    the whole line in its value.  The parser returns no entry under that
    key; the entry it returns is keyed by ["abcd1234"] and its value ends in
    the line without its surrounding spaces. *)
Lemma parse_applies_rules_to_raw_line_counterexample :
  match parse_remote_text " abcd1234-v1.th ", Claimed.parse_catalog " abcd1234-v1.th " with
  | Ok m, Ok claimed =>
      claimed !! " abcd1234" = Some (ROOT_URL +:+ " abcd1234-v1.th ")
      ∧ m !! " abcd1234" = None
      ∧ m !! "abcd1234" = Some (ROOT_URL +:+ "abcd1234-v1.th")
      ∧ before_first "-" " abcd1234-v1.th " = " abcd1234"
  | _, _ => False
  end.
Proof. vm_compute. repeat split; reflexivity. Qed.

(** C3 (amended): every line of the manifest is first stripped of leading
    and trailing whitespace.  Then a line starting with '#' is skipped, a
    line starting with 'root:' sets the path prefix for the entry lines that
    follow, and any other line is an entry keyed by the portion of the
    stripped line before the first '-', whose value is [ROOT_URL], the
    current prefix and the stripped line.  When no short name repeats the
    parser returns a catalog, and a catalog it returns has exactly one entry
    per entry line (the empty remainder after a final newline is an entry
    line).  The manifest "root: mdx/\nabcd1234-v1.th\n" maps "abcd1234" to
    [ROOT_URL] followed by "mdx/abcd1234-v1.th". *)
Theorem parse_remote_text_spec (text : string) :
  let lines := PyStr.split "010"%char text in
  (NoDup (entry_names lines) → ∃ m, parse_remote_text text = Ok m)
  ∧ (∀ m, parse_remote_text text = Ok m → catalog_of lines m)
  ∧ match parse_remote_text sample_manifest with
    | Ok m => m !! "abcd1234" = Some (ROOT_URL +:+ "mdx/abcd1234-v1.th")
    | Raise _ => False
    end.
Proof.
  intros lines. split; [|split].
  - intros Hnd. apply parse_lines_total; [done|]. intros n _. apply lookup_empty.
  - intros m Hm. unfold parse_remote_text in Hm. fold lines in Hm.
    split; [|split].
    + intros i raw n Hi Hn. by eapply parse_lines_lookup.
    + intros k Hk. destruct (parse_lines_keys _ _ _ _ _ Hm Hk) as [Hin|Hin]; [|done].
      rewrite lookup_empty in Hin. by destruct Hin.
    + rewrite (parse_lines_size _ _ _ _ Hm), map_size_empty. lia.
  - vm_compute. reflexivity.
Qed.

Lemma parse_remote_text_spec_witness :
  ∃ m, parse_remote_text sample_manifest = Ok m
       ∧ m !! "abcd1234" = Some (ROOT_URL +:+ "mdx/" +:+ "abcd1234-v1.th")
       ∧ size m = 2%nat.
Proof.
  destruct (parse_remote_text_spec sample_manifest) as (Htotal & Hspec & _).
  rewrite sample_manifest_lines in Htotal, Hspec.
  destruct Htotal as [m Hm].
  { apply (bool_decide_unpack _). vm_compute. exact I. }
  exists m. split; [exact Hm|].
  destruct (Hspec m Hm) as (Hlookup & _ & Hsize).
  split; [|exact Hsize].
  apply (Hlookup 1%nat "abcd1234-v1.th" "abcd1234"); vm_compute; reflexivity.
Defined.

(** C7: when two distinct lines of the manifest are entry lines with the
    same short name (the portion before the first '-' of the line, as the
    parser sees it), parsing raises the assertion error and returns no
    mapping: neither entry is kept. *)
Theorem duplicate_short_name_is_fatal (text : string) (i j : nat) (ri rj n : string) :
  i ≠ j →
  PyStr.split "010"%char text !! i = Some ri →
  PyStr.split "010"%char text !! j = Some rj →
  classify (PyStr.strip ri) = Entry n →
  classify (PyStr.strip rj) = Entry n →
  parse_remote_text text = Raise AssertionError.
Proof.
  intros Hij Hi Hj Hni Hnj. unfold parse_remote_text.
  destruct (decide (i < j)%nat).
  - by eapply (parse_lines_repeat _ _ _ i j).
  - eapply (parse_lines_repeat _ _ _ j i); [lia|done..].
Qed.

Lemma duplicate_short_name_is_fatal_witness :
  parse_remote_text ("abcd1234-v1.th" +:+ nl +:+ "abcd1234-v2.th") = Raise AssertionError.
Proof.
  apply (duplicate_short_name_is_fatal _ 0 1 "abcd1234-v1.th" "abcd1234-v2.th" "abcd1234");
    [lia|vm_compute; reflexivity..].
Defined.

(** ** Running the effects *)

Lemma alter_last {A} (f : A → A) (l : list A) (x : A) :
  alter f (length l) (l ++ [x]) = l ++ [f x].
Proof. induction l as [|y l IH]; simpl; [done|]. by f_equal. Qed.

Lemma lookup_last {A} (l : list A) (x : A) : (l ++ [x]) !! length l = Some x.
Proof. by apply list_lookup_middle. Qed.

Lemma construct_run a srcs w :
  construct a srcs w =
    (Ok (length (heap w)),
     World (heap w ++ [Model a srcs true None []]) (quantizers w)
       (log w ++ [E_new_model (length (heap w)) a])).
Proof. reflexivity. Qed.

(** [_load_state], case by case: the name is unknown, the download fails,
    the state is applied without or with a quantizer. *)
Lemma load_state_run c name id q w :
  _load_state c name id q w =
    match get_url name with
    | Raise e => (Raise e, w)
    | Ok url =>
        match load_state_dict_from_url c url with
        | None =>
            (Raise TransportError,
             World (heap w) (quantizers w) (log w ++ [E_download url]))
        | Some s =>
            let h := alter (set_weights s) id (heap w) in
            match q with
            | None =>
                (Ok tt,
                 World h (quantizers w)
                   (log w ++ [E_download url; E_set_state id None]))
            | Some qz =>
                (Ok tt,
                 World (match quantizers w !! qz with
                        | Some z => alter (remove_hook qz) (q_model z) h
                        | None => h
                        end)
                   (quantizers w)
                   (log w ++ [E_download url; E_set_state id (Some qz); E_detach qz]))
            end
        end
    end.
Proof.
  unfold _load_state, bind, lift, hub_load_state_dict_from_url, bind.
  destruct (get_url name) as [url|e]; [|done]. cbn.
  destruct (load_state_dict_from_url c url) as [s|]; [|done]. cbn.
  destruct q as [qz|]; unfold detach, ret; cbn; rewrite <- ?app_assoc; reflexivity.
Qed.

Lemma get_url_known name sig :
  (name, sig) ∈ [("demucs", "e07c671f"); ("demucs48_hq", "28a1282c");
                 ("demucs_extra", "3646af93"); ("demucs_quantized", "07afea75");
                 ("tasnet", "beb46fac"); ("tasnet_extra", "df3777b2");
                 ("demucs_unittest", "09ebc15f")] →
  get_url name = Ok (ROOT +:+ name +:+ "-" +:+ sig +:+ ".th").
Proof.
  intros Hin. repeat (apply elem_of_cons in Hin as [[= -> ->]|Hin]; [by vm_compute|]).
  by apply elem_of_nil in Hin.
Qed.

(** ** The legacy URL builder *)

Lemma slice_to_prefix n s : ∃ rest, s = PyStr.slice_to n s +:+ rest.
Proof.
  revert s. induction n as [|n IH]; intros s; [by exists s|].
  destruct s as [|a s]; [by exists ""|].
  destruct (IH s) as [rest Hrest]. exists rest. simpl.
  unfold String.app in *. simpl. by f_equal.
Qed.

Lemma slice_to_length n s :
  String.length (PyStr.slice_to n s) = (n `min` String.length s)%nat.
Proof.
  revert s. induction n as [|n IH]; intros [|a s]; simpl; auto.
Qed.

Lemma slice_to_short n s : (String.length s ≤ n)%nat → PyStr.slice_to n s = s.
Proof.
  revert s. induction n as [|n IH]; intros [|a s]; simpl; try done; [lia|].
  intros. f_equal. apply IH. lia.
Qed.

(** C4: for a name that the table maps to the signature [S], [get_url]
    returns the remote root, the name, "-", the first 8 characters of [S] and
    ".th".  The result is a value computed from the table and the name alone
    (no channel count enters it) and the world is left as it was.  A
    signature of fewer than 8 characters is not rejected: the slice is then
    all of [S]. *)
Theorem get_url_spec (table : gmap string string) (name S : string) :
  table !! name = Some S →
  get_url_in table name
    = Ok (ROOT +:+ name +:+ "-" +:+ PyStr.slice_to 8 S +:+ ".th")
  ∧ (∃ rest, S = PyStr.slice_to 8 S +:+ rest)
  ∧ String.length (PyStr.slice_to 8 S) = (8 `min` String.length S)%nat
  ∧ ((String.length S < 8)%nat → PyStr.slice_to 8 S = S)
  ∧ (∀ w, ∃ url, lift (get_url_in table name) w = (Ok url, w))
  ∧ get_url = get_url_in PRETRAINED_MODELS.
Proof.
  intros Hsig. unfold get_url_in, lift. rewrite Hsig.
  repeat split; eauto using slice_to_prefix, slice_to_length.
  intros. apply slice_to_short. lia.
Qed.

Lemma get_url_spec_witness :
  get_url "demucs48_hq" = Ok "https://dl.fbaipublicfiles.com/demucs/v3.0/demucs48_hq-28a1282c.th"
  ∧ get_url_in {[ "demucs" := "e07c" ]} "demucs"
    = Ok "https://dl.fbaipublicfiles.com/demucs/v3.0/demucs-e07c.th".
Proof.
  split.
  - destruct (get_url_spec PRETRAINED_MODELS "demucs48_hq" "28a1282c") as (H & _);
      [vm_compute; reflexivity|]. exact H.
  - destruct (get_url_spec {[ "demucs" := "e07c" ]} "demucs" "e07c") as (H & _);
      [vm_compute; reflexivity|]. exact H.
Defined.

(** ** The legacy factories *)

#[local] Arguments _load_state : simpl never.

(** C6: with [pretrained=False], [demucs] with any of [extra], [quantized],
    [hq] set and [tasnet] with [extra] set raise [ValueError] and leave the
    world as it was: no model is built, nothing is downloaded, no state is
    loaded. *)
Theorem options_require_pretrained (c : collaborators) (w : world) :
  (∀ extra quantized hq channels,
     extra || quantized || hq = true →
     demucs c false extra quantized hq channels w
       = (Raise (ValueError "if extra or quantized is True, pretrained must be True."), w))
  ∧ tasnet c false true w
      = (Raise (ValueError "if extra is True, pretrained must be True."), w).
Proof.
  split; [|done]. intros e q h ch Hany. unfold demucs. simpl. by rewrite Hany.
Qed.

Lemma options_require_pretrained_witness :
  demucs sample_collaborators false true false false 64 empty_world
    = (Raise (ValueError "if extra or quantized is True, pretrained must be True."),
       empty_world).
Proof.
  apply (proj1 (options_require_pretrained sample_collaborators empty_world)).
  reflexivity.
Defined.

(** C5, as the claim words it, fails: with [quantized] and [hq] both set the
    [ValueError] is raised after the [Demucs] instance has been built. *)
Lemma two_flags_raise_before_construction_counterexample :
  demucs sample_collaborators true false true true 64 empty_world
    = (Raise (ValueError "Only one of extra, quantized, hq, can be True."),
       World [Model (Demucs 64) SOURCES true None []] []
         [E_new_model 0 (Demucs 64)])
  ∧ heap empty_world = [].
Proof. split; reflexivity. Qed.

(** C5 (amended): with [pretrained=True] and at least two of [extra],
    [quantized], [hq] set, [demucs] raises [ValueError]; by then it has built
    the [Demucs] instance and nothing else: no quantizer, no download, no
    state load. *)
Theorem two_flags_raise_after_construction
    (c : collaborators) (extra quantized hq : bool) (channels : Z) (w : world) :
  extra && quantized || extra && hq || quantized && hq = true →
  demucs c true extra quantized hq channels w
    = (Raise (ValueError "Only one of extra, quantized, hq, can be True."),
       World (heap w ++ [Model (Demucs channels) SOURCES true None []])
         (quantizers w)
         (log w ++ [E_new_model (length (heap w)) (Demucs channels)])).
Proof.
  intros Htwo. unfold demucs. cbn.
  destruct extra, quantized, hq; try discriminate Htwo;
    (case_decide as Hsum; [done|]; exfalso; apply Hsum; by vm_compute).
Qed.

Lemma two_flags_raise_after_construction_witness :
  demucs sample_collaborators true true true false 48 empty_world
    = (Raise (ValueError "Only one of extra, quantized, hq, can be True."),
       World [Model (Demucs 48) SOURCES true None []] []
         [E_new_model 0 (Demucs 48)]).
Proof.
  apply (two_flags_raise_after_construction sample_collaborators true true false 48 empty_world).
  reflexivity.
Defined.

(** C8: [demucs(pretrained=True, quantized=True)] builds the model, then a
    quantizer around it with [group_size=8] and [min_size=1], and only then
    asks for the state.  When the state arrives it is applied through the
    quantizer and the quantizer is detached last: the model that is returned
    holds the state and has no hook attached.  When the download fails the
    exception propagates and no model is returned. *)
Theorem quantized_builds_codec_then_detaches (c : collaborators) (w : world) :
  let url := "https://dl.fbaipublicfiles.com/demucs/v3.0/demucs_quantized-07afea75.th" in
  let id := length (heap w) in
  let q := length (quantizers w) in
  demucs c true false true false 64 w =
    match load_state_dict_from_url c url with
    | Some s =>
        (Ok id,
         World (heap w ++ [Model (Demucs 64) SOURCES true (Some s) []])
           (quantizers w ++ [Quantizer id 8 1])
           (log w ++ [E_new_model id (Demucs 64); E_new_quantizer q id 8 1;
                      E_download url; E_set_state id (Some q); E_detach q]))
    | None =>
        (Raise TransportError,
         World (heap w ++ [Model (Demucs 64) SOURCES true None [q]])
           (quantizers w ++ [Quantizer id 8 1])
           (log w ++ [E_new_model id (Demucs 64); E_new_quantizer q id 8 1;
                      E_download url]))
    end.
Proof.
  intros url id q. subst id q. unfold demucs. cbn.
  case_decide as Hsum; [by vm_compute in Hsum|].
  unfold DiffQuantizer, bind, ret. cbn.
  rewrite load_state_run.
  replace (get_url _) with (Ok (A:=string) url) by (by vm_compute).
  cbn [heap quantizers log]. rewrite lookup_last. cbn [q_model].
  rewrite !alter_last.
  destruct (load_state_dict_from_url c url) as [s|]; cbn zeta.
  - rewrite !alter_last. unfold remove_hook, set_weights, add_hook. cbn [arch sources training weights hooks].
    rewrite filter_cons_False by (intros Hn; by apply Hn).
    rewrite filter_nil. by rewrite <- !app_assoc.
  - by rewrite <- !app_assoc.
Qed.

(** ** Decimal numerals and the names of the legacy table *)

Lemma str_head n : ∃ a s, PyStr.str n = String a s ∧ a ≠ "_"%char.
Proof.
  unfold PyStr.str, NilZero.string_of_int, NilZero.string_of_uint.
  destruct (Z.to_int n) as [d|d]; [|by eexists _, _].
  destruct d; simpl; by eexists _, _.
Qed.

Lemma str_parse n : NilZero.int_of_string (PyStr.str n) = Some (Z.to_int n).
Proof.
  unfold PyStr.str. apply NilZero.isi; destruct n; simpl; try done;
    intros [= H]; by apply DecimalPos.Unsigned.to_uint_nonnil in H.
Qed.

Lemma str_inj n k : PyStr.str n = PyStr.str k → n = k.
Proof.
  intros H. apply (f_equal NilZero.int_of_string) in H.
  rewrite !str_parse in H. injection H as H.
  by rewrite <- (DecimalZ.of_to n), <- (DecimalZ.of_to k), H.
Qed.

Lemma pretrained_lookup k : is_Some (PRETRAINED_MODELS !! k) ↔ k ∈ legacy_names.
Proof.
  rewrite <- elem_of_dom. unfold PRETRAINED_MODELS. rewrite dom_list_to_map_L.
  rewrite elem_of_list_to_set. cbn [fmap list_fmap fst]. unfold legacy_names.
  rewrite !elem_of_cons. tauto.
Qed.

Lemma get_url_unknown name :
  name ∉ legacy_names → get_url name = Raise (KeyError name).
Proof.
  intros Hn. unfold get_url, get_url_in.
  destruct (PRETRAINED_MODELS !! name) as [sig|] eqn:Hs; [|done].
  destruct Hn. apply pretrained_lookup. by eexists.
Qed.

Lemma string_app_cons a s t : String a s +:+ t = String a (s +:+ t).
Proof. reflexivity. Qed.

Lemma string_app_nil t : "" +:+ t = t.
Proof. reflexivity. Qed.

Lemma app_eq_cons s t a r :
  s +:+ t = String a r →
  (s = "" ∧ t = String a r) ∨ (∃ s', s = String a s' ∧ s' +:+ t = r).
Proof.
  destruct s as [|b s]; [by left|]. rewrite string_app_cons.
  intros [= -> <-]. right. by eexists.
Qed.

Lemma app_eq_nil s t : s +:+ t = "" → s = "" ∧ t = "".
Proof. by destruct s. Qed.

(** Compares, character by character, a string that ends in a literal with
    a literal. *)
Ltac peel :=
  repeat match goal with
         | H : _ +:+ _ = String _ _ |- _ =>
             apply app_eq_cons in H as [[? ?]|(? & ? & ?)]; simplify_eq
         end;
  try match goal with
      | H : _ +:+ _ = "" |- _ => apply app_eq_nil in H as [? ?]; simplify_eq
      end.

Lemma artifact_name_cases channels extra quantized hq :
  channels ≠ 64 → flag_sum extra quantized hq ≤ 1 →
  ∃ suffix,
    artifact_name channels extra quantized hq = "demucs" +:+ PyStr.str channels +:+ suffix
    ∧ suffix ∈ [""; "_quantized"; "_extra"; "_hq"]
    ∧ (suffix = "_hq" ↔ hq = true).
Proof.
  intros Hch Hsum. unfold artifact_name. rewrite decide_True by done.
  destruct extra, quantized, hq; try (by vm_compute in Hsum);
    eexists; (split; [reflexivity|]); rewrite !elem_of_cons; split; auto 6; done.
Qed.

Lemma artifact_name_known channels extra quantized hq :
  channels ≠ 64 → flag_sum extra quantized hq ≤ 1 →
  artifact_name channels extra quantized hq ∈ legacy_names ↔ channels = 48 ∧ hq = true.
Proof.
  intros Hch Hsum. split.
  - destruct (artifact_name_cases _ _ _ _ Hch Hsum) as (suffix & -> & Hsuf & Hhq).
    destruct (str_head channels) as (a & s & Hstr & Ha).
    pose proof (str_parse channels) as Hparse.
    rewrite Hstr. unfold legacy_names. intros Hkey.
    rewrite !elem_of_cons, elem_of_nil in Hsuf.
    rewrite !elem_of_cons, elem_of_nil in Hkey.
    destruct Hsuf as [->|[->|[->|[->|[]]]]];
      destruct Hkey as [H|[H|[H|[H|[H|[H|[H|[]]]]]]]];
      rewrite !string_app_cons, string_app_nil in H; simplify_eq; peel;
      first [ by (rewrite Hstr in Hparse; vm_compute in Hparse; discriminate Hparse)
            | split; [apply str_inj; rewrite Hstr; by vm_compute | by apply Hhq] ].
  - intros [-> ->]. destruct extra, quantized; try by vm_compute in Hsum.
    replace (artifact_name 48 false false true) with "demucs48_hq" by (by vm_compute).
    unfold legacy_names. rewrite !elem_of_cons. tauto.
Qed.

Lemma string_app_nil_r s : s +:+ "" = s.
Proof. induction s as [|a s IH]; [done|]. by rewrite string_app_cons, IH. Qed.

Lemma string_app_assoc s t u : (s +:+ t) +:+ u = s +:+ t +:+ u.
Proof. induction s as [|a s IH]; [done|]. by rewrite !string_app_cons, IH. Qed.

(** The name that the body of [demucs] builds step by step. *)
Lemma artifact_name_steps (channels : Z) (extra quantized hq : bool) :
  (let name : string := "demucs" in
   let name := if decide (channels ≠ 64) then name +:+ PyStr.str channels else name in
   let name := if quantized then name +:+ "_quantized" else name in
   let name := if extra then name +:+ "_extra" else name in
   if hq then name +:+ "_hq" else name)
  = artifact_name channels extra quantized hq.
Proof.
  unfold artifact_name. cbn zeta.
  destruct (decide (channels ≠ 64)), quantized, extra, hq;
    by rewrite ?string_app_assoc, ?string_app_nil_r, ?string_app_nil.
Qed.

Lemma artifact_name_plain channels :
  channels ≠ 64 → artifact_name channels false false false = "demucs" +:+ PyStr.str channels.
Proof. intros Hch. by rewrite <- artifact_name_steps, decide_True. Qed.

(** [demucs(pretrained=True, ...)] with at most one flag set: the model is
    built, then the quantizer if asked for, then [_load_state] runs on the
    artifact name. *)
Lemma demucs_pretrained_run c extra quantized hq channels w :
  flag_sum extra quantized hq ≤ 1 →
  demucs c true extra quantized hq channels w =
    let id := length (heap w) in
    let q := length (quantizers w) in
    let fresh := Model (Demucs channels) SOURCES true None [] in
    let built :=
      if quantized then
        World (heap w ++ [add_hook q fresh])
          (quantizers w ++ [Quantizer id 8 1])
          (log w ++ [E_new_model id (Demucs channels); E_new_quantizer q id 8 1])
      else
        World (heap w ++ [fresh]) (quantizers w)
          (log w ++ [E_new_model id (Demucs channels)]) in
    match _load_state c (artifact_name channels extra quantized hq) id
            (if quantized then Some q else None) built with
    | (Ok _, w') => (Ok id, w')
    | (Raise e, w') => (Raise e, w')
    end.
Proof.
  intros Hsum. rewrite <- artifact_name_steps. unfold demucs. cbn.
  case_decide as Hgt; [lia|].
  destruct quantized; cbn; unfold bind; cbn.
  - rewrite alter_last, <- app_assoc. by destruct extra, hq.
  - by destruct extra, hq.
Qed.

(** C10: with [pretrained=True], no flag set and [channels] other than 64,
    [demucs] builds the model, derives the name "demucs" followed by
    [str(channels)], which is not a key of the table, and raises [KeyError]
    from the URL lookup: nothing is downloaded.  With one flag set at most, a
    channel count other than 64 derives a key of the table only when it is 48
    with [hq]; in every other case the run ends in that [KeyError] with no
    download, and for 48 with [hq] the download of "demucs48_hq" is asked
    for. *)
Theorem non_default_channels_name (c : collaborators) (channels : Z) (w : world) :
  channels ≠ 64 →
  demucs c true false false false channels w
    = (Raise (KeyError ("demucs" +:+ PyStr.str channels)),
       World (heap w ++ [Model (Demucs channels) SOURCES true None []])
         (quantizers w)
         (log w ++ [E_new_model (length (heap w)) (Demucs channels)]))
  ∧ PRETRAINED_MODELS !! ("demucs" +:+ PyStr.str channels) = None
  ∧ (∀ extra quantized hq,
       flag_sum extra quantized hq ≤ 1 →
       let name := artifact_name channels extra quantized hq in
       let run := demucs c true extra quantized hq channels w in
       (is_Some (PRETRAINED_MODELS !! name) ↔ channels = 48 ∧ hq = true)
       ∧ (¬ (channels = 48 ∧ hq = true) →
            run.1 = Raise (KeyError name)
            ∧ ∀ url, E_download url ∉ new_events w run.2)
       ∧ (channels = 48 ∧ hq = true →
            E_download "https://dl.fbaipublicfiles.com/demucs/v3.0/demucs48_hq-28a1282c.th"
              ∈ new_events w run.2)).
Proof.
  intros Hch.
  assert (Hgeneral : ∀ extra quantized hq,
       flag_sum extra quantized hq ≤ 1 →
       (is_Some (PRETRAINED_MODELS !! artifact_name channels extra quantized hq)
          ↔ channels = 48 ∧ hq = true)
       ∧ (¬ (channels = 48 ∧ hq = true) →
            demucs c true extra quantized hq channels w
              = (Raise (KeyError (artifact_name channels extra quantized hq)),
                 (demucs c true extra quantized hq channels w).2)
            ∧ ∃ q, log (demucs c true extra quantized hq channels w).2
                     = log w ++ E_new_model (length (heap w)) (Demucs channels) :: q
                   ∧ ∀ url, E_download url ∉ q)
       ∧ (channels = 48 ∧ hq = true →
            E_download "https://dl.fbaipublicfiles.com/demucs/v3.0/demucs48_hq-28a1282c.th"
              ∈ new_events w (demucs c true extra quantized hq channels w).2)).
  { intros e q h Hsum.
    set (name := artifact_name channels e q h).
    set (run := demucs c true e q h channels w).
    pose proof (artifact_name_known channels e q h Hch Hsum) as Hknown.
    split; [by rewrite pretrained_lookup|]. split.
    - intros Hno. subst run. rewrite (demucs_pretrained_run _ _ _ _ _ _ Hsum).
      cbn zeta. rewrite load_state_run.
      rewrite get_url_unknown by (fold name; tauto). fold name.
      split; [done|]. destruct q; cbn [snd log].
      + eexists [_]. split; [done|].
        intros url ?%list_elem_of_singleton. done.
      + exists []. split; [done|]. intros url. apply not_elem_of_nil.
    - intros [-> ->]. destruct e, q; try by vm_compute in Hsum.
      subst run. rewrite (demucs_pretrained_run _ _ _ _ _ _ Hsum).
      cbn zeta. rewrite load_state_run.
      replace (get_url _) with
        (Ok (A:=string) "https://dl.fbaipublicfiles.com/demucs/v3.0/demucs48_hq-28a1282c.th")
        by (by vm_compute).
      unfold new_events.
      destruct (load_state_dict_from_url c _); cbn [snd log];
        rewrite <- app_assoc, drop_app_length; cbn [app]; rewrite !elem_of_cons; auto. }
  split; [|split].
  - assert (Hsum : flag_sum false false false ≤ 1) by (by vm_compute).
    rewrite (demucs_pretrained_run _ _ _ _ _ _ Hsum). cbn zeta.
    rewrite load_state_run, artifact_name_plain by done.
    rewrite get_url_unknown; [done|].
    rewrite <- (artifact_name_plain _ Hch), artifact_name_known by done.
    by intros [_ [=]].
  - apply eq_None_not_Some. rewrite pretrained_lookup.
    rewrite <- (artifact_name_plain _ Hch), artifact_name_known; [|done|by vm_compute].
    by intros [_ [=]].
  - intros e q h Hsum name run.
    destruct (Hgeneral e q h Hsum) as (Hkey & Hraise & Hload).
    split; [done|]. split; [|done].
    intros Hno. destruct (Hraise Hno) as (Hrun & q' & Hlog & Hq').
    fold run in Hrun, Hlog. split; [by rewrite Hrun|].
    intros url. unfold new_events. rewrite Hlog, drop_app_length.
    intros [[=]|?]%elem_of_cons. by eapply Hq'.
Qed.

Lemma non_default_channels_name_witness :
  demucs sample_collaborators true false false false 48 empty_world
    = (Raise (KeyError "demucs48"),
       World [Model (Demucs 48) SOURCES true None []] [] [E_new_model 0 (Demucs 48)]).
Proof.
  apply (proj1 (non_default_channels_name sample_collaborators 48 empty_world ltac:(lia))).
Defined.

(** ** The names of the module *)

Lemma demucs_unittest_is_rebound :
  module_globals !! "demucs_unittest" = global_demucs_unittest
  ∧ global_demucs_unittest = Some def_demucs_unittest_179.
Proof. split; [by vm_compute|reflexivity]. Qed.

(** What the definition at line 34 does when it is called: an [HDemucs]
    model, nothing applied to it, nothing read or fetched. *)
Lemma line34_demucs_unittest_run w :
  Line34.demucs_unittest w =
    (Ok (length (heap w)),
     World (heap w ++ [Model (HDemucs 4) SOURCES true None []]) (quantizers w)
       (log w ++ [E_new_model (length (heap w)) (HDemucs 4)])).
Proof. reflexivity. Qed.

Lemma call_demucs_unittest_run c pretrained w :
  call_demucs_unittest c pretrained w =
    Line179.demucs_unittest c (default true pretrained) w.
Proof. reflexivity. Qed.

Lemma line179_demucs_unittest_run c w :
  let url := "https://dl.fbaipublicfiles.com/demucs/v3.0/demucs_unittest-09ebc15f.th" in
  let id := length (heap w) in
  Line179.demucs_unittest c true w =
    match load_state_dict_from_url c url with
    | Some s =>
        (Ok id,
         World (heap w ++ [Model (Demucs 4) SOURCES true (Some s) []]) (quantizers w)
           (log w ++ [E_new_model id (Demucs 4); E_download url; E_set_state id None]))
    | None =>
        (Raise TransportError,
         World (heap w ++ [Model (Demucs 4) SOURCES true None []]) (quantizers w)
           (log w ++ [E_new_model id (Demucs 4); E_download url]))
    end.
Proof.
  intros url id. subst id. unfold Line179.demucs_unittest. cbn.
  unfold bind. rewrite load_state_run.
  replace (get_url _) with (Ok (A:=string) url) by (by vm_compute).
  cbn [heap quantizers log].
  destruct (load_state_dict_from_url c url) as [s|]; cbn zeta.
  - rewrite alter_last. by rewrite <- !app_assoc.
  - by rewrite <- !app_assoc.
Qed.

(** ** [get_model] *)

(** The fast path of [get_model] is the call of the rebound name. *)
Lemma get_model_unittest_run c repo w :
  get_model c "demucs_unittest" repo w = Line179.demucs_unittest c true w.
Proof. unfold get_model. by rewrite decide_True. Qed.

Lemma bind_ok_inv {A B} (m : M A) (k : A → M B) w b w' :
  bind m k w = (Ok b, w') → ∃ a w1, m w = (Ok a, w1) ∧ k a w1 = (Ok b, w').
Proof. unfold bind. destruct (m w) as [[a|e] w1]; [eauto|done]. Qed.

(** C1: [get_model("demucs_unittest", repo)] calls the function that the
    name [demucs_unittest] denotes when the call is made, which is the
    definition at line 179 with [pretrained=True]: it builds a [Demucs]
    model and asks the download service for the "demucs_unittest" state.
    When the state arrives the model is returned with that state applied;
    when it does not, the call raises. *)
Theorem get_model_unittest_downloads (c : collaborators) (repo : option string) (w : world) :
  let url := "https://dl.fbaipublicfiles.com/demucs/v3.0/demucs_unittest-09ebc15f.th" in
  let id := length (heap w) in
  get_model c "demucs_unittest" repo w =
    match load_state_dict_from_url c url with
    | Some s =>
        (Ok id,
         World (heap w ++ [Model (Demucs 4) SOURCES true (Some s) []]) (quantizers w)
           (log w ++ [E_new_model id (Demucs 4); E_download url; E_set_state id None]))
    | None =>
        (Raise TransportError,
         World (heap w ++ [Model (Demucs 4) SOURCES true None []]) (quantizers w)
           (log w ++ [E_new_model id (Demucs 4); E_download url]))
    end.
Proof.
  intros url id. rewrite get_model_unittest_run.
  apply line179_demucs_unittest_run.
Qed.

(** C2, as the claim words it, fails on the fast path: the model that
    [get_model("demucs_unittest")] returns is in training mode, and no call
    of [eval] was made. *)
Lemma get_model_unittest_not_eval_counterexample :
  let run := get_model sample_collaborators "demucs_unittest" None empty_world in
  run.1 = Ok 0%nat
  ∧ training <$> heap run.2 !! 0%nat = Some true
  ∧ E_eval 0 ∉ log run.2.
Proof.
  cbn zeta. rewrite get_model_unittest_run, line179_demucs_unittest_run. cbn.
  split; [done|]. split; [done|].
  rewrite !elem_of_cons, elem_of_nil. by intros [|[|[|]]].
Qed.

(** C2 (amended): for every name other than "demucs_unittest", when
    [get_model] returns a model, its last act was [model.eval()] on that
    model, and the model is in evaluation mode.  On the "demucs_unittest"
    path [get_model] makes no call of [eval]. *)
Theorem get_model_returns_eval_mode
    (c : collaborators) (name : string) (repo : option string) (w w' : world) (id : nat) :
  (name ≠ "demucs_unittest" →
   get_model c name repo w = (Ok id, w') →
   training <$> heap w' !! id = Some false
   ∧ last (log w') = Some (E_eval id))
  ∧ (∀ k, E_eval k ∉ new_events w (get_model c "demucs_unittest" repo w).2).
Proof.
  split.
  - intros Hname. unfold get_model. rewrite decide_False by done.
    assert (Hlookup : ∀ r w1,
      (model <- any_repo_get_model c r name ;; eval model ;; ret model) w1 = (Ok id, w') →
      training <$> heap w' !! id = Some false ∧ last (log w') = Some (E_eval id)).
    { intros r w1. unfold any_repo_get_model, bind, lift, emit, alloc_model, eval,
        update_model, ret, bind, emit. cbn.
      destruct (repo_get_model c r name) as [m|e]; [|done]. cbn.
      intros [= <- <-]. cbn. rewrite alter_last, lookup_last, last_snoc. done. }
    intros (repos & w1 & _ & Hrun)%bind_ok_inv. by eapply Hlookup.
  - intros k. rewrite get_model_unittest_run, line179_demucs_unittest_run. unfold new_events.
    destruct (load_state_dict_from_url c _); cbn [snd log];
      rewrite drop_app_length, !elem_of_cons, elem_of_nil; intuition discriminate.
Qed.

Lemma get_model_returns_eval_mode_witness :
  let run := get_model sample_collaborators "abcd1234" None empty_world in
  training <$> heap run.2 !! 0%nat = Some false
  ∧ last (log run.2) = Some (E_eval 0).
Proof.
  cbn zeta.
  apply (proj1 (get_model_returns_eval_mode sample_collaborators "abcd1234" None
                  empty_world _ 0%nat)); [done|].
  vm_compute. reflexivity.
Defined.

(** ** [load_pretrained] *)

(** C9: [load_pretrained] makes, for each of the seven names of the closed
    set, the one builder call that the dispatch table lists for it and
    nothing else; for any other name it raises [ValueError] and leaves the
    world as it was. *)
Theorem load_pretrained_dispatch (c : collaborators) (name : string) :
  (∀ b, (name, b) ∈ legacy_dispatch → load_pretrained c name = invoke c b)
  ∧ (name ∈ legacy_names ↔ ∃ b, (name, b) ∈ legacy_dispatch)
  ∧ (∀ b b', (name, b) ∈ legacy_dispatch → (name, b') ∈ legacy_dispatch → b = b')
  ∧ (name ∉ legacy_names →
     ∀ w, load_pretrained c name w
          = (Raise (ValueError ("Invalid pretrained name " +:+ name)), w)).
Proof.
  unfold legacy_dispatch, legacy_names. split; [|split; [|split]].
  - intros b Hb. rewrite !elem_of_cons, elem_of_nil in Hb.
    destruct Hb as [[= -> ->]|[[= -> ->]|[[= -> ->]|[[= -> ->]|[[= -> ->]|[[= -> ->]|[[= -> ->]|[]]]]]]]];
      reflexivity.
  - rewrite !elem_of_cons, elem_of_nil. split.
    + intros [->|[->|[->|[->|[->|[->|[->|[]]]]]]]]; eexists;
        rewrite !elem_of_cons; eauto 10.
    + intros [b Hb]. rewrite !elem_of_cons, elem_of_nil in Hb.
      repeat (destruct Hb as [[= -> _]|Hb]; [auto 10|]). done.
  - intros b b' Hb Hb'. rewrite !elem_of_cons, elem_of_nil in Hb, Hb'.
    repeat (destruct Hb as [[= -> ->]|Hb];
            [repeat (destruct Hb' as [Hb'|Hb']; [by simplify_eq|]); done|]).
    done.
  - rewrite !elem_of_cons, elem_of_nil. intros Hn w.
    unfold load_pretrained.
    repeat (case_decide; [exfalso; apply Hn; auto 10|]). done.
Qed.

Lemma load_pretrained_dispatch_witness :
  load_pretrained sample_collaborators "demucs48_hq"
    = demucs sample_collaborators true false false true 48
  ∧ load_pretrained sample_collaborators "mdx_extra_q" empty_world
    = (Raise (ValueError "Invalid pretrained name mdx_extra_q"), empty_world).
Proof.
  destruct (load_pretrained_dispatch sample_collaborators "demucs48_hq") as (Hcall & _).
  destruct (load_pretrained_dispatch sample_collaborators "mdx_extra_q") as (_ & _ & _ & Hbad).
  split.
  - apply (Hcall (to_demucs true false false true 48)).
    unfold legacy_dispatch. rewrite !elem_of_cons. auto.
  - apply Hbad. unfold legacy_names. rewrite !elem_of_cons, elem_of_nil.
    intros [|[|[|[|[|[|[|[]]]]]]]]; discriminate.
Defined.

(** * Further properties *)

(** ** [_parse_remote_files] *)

Lemma parse_lines_only_assertion lines : ∀ root models e,
  parse_lines lines root models = Raise e → e = AssertionError.
Proof.
  induction lines as [|l rest IH]; intros root models e; [done|].
  destruct (classify (PyStr.strip l)) as [|p|n] eqn:Hc.
  - rewrite (parse_lines_comment _ _ _ _ Hc). apply IH.
  - rewrite (parse_lines_root _ _ _ _ _ Hc). apply IH.
  - rewrite (parse_lines_entry _ _ _ _ _ Hc). case_decide; [by intros [= <-]|apply IH].
Qed.

Lemma parse_lines_ok_distinct lines : ∀ root models m,
  parse_lines lines root models = Ok m →
  NoDup (entry_names lines) ∧ ∀ n, n ∈ entry_names lines → models !! n = None.
Proof.
  induction lines as [|l rest IH]; intros root models m Hm.
  - split; [constructor|]. by intros n ?%elem_of_nil.
  - simpl. destruct (classify (PyStr.strip l)) as [|p|n] eqn:Hc.
    + rewrite (parse_lines_comment _ _ _ _ Hc) in Hm. by eapply IH.
    + rewrite (parse_lines_root _ _ _ _ _ Hc) in Hm. by eapply IH.
    + rewrite (parse_lines_entry _ _ _ _ _ Hc) in Hm. case_decide as Hn; [done|].
      destruct (IH _ _ _ Hm) as [Hnd Hfresh]. split.
      * constructor; [|done]. intros Hin. specialize (Hfresh _ Hin).
        by rewrite lookup_insert_eq in Hfresh.
      * intros k [->|Hk]%elem_of_cons; [by apply eq_None_not_Some|].
        specialize (Hfresh _ Hk).
        by apply lookup_insert_None in Hfresh as [? _].
Qed.

(** X1: parsing a manifest succeeds exactly when the short names of its
    entry lines are pairwise distinct, and the only exception it can raise is
    the assertion error (the index [1] taken after a 'root:' test never
    fails). *)
Theorem parse_succeeds_iff_distinct (text : string) :
  let lines := PyStr.split "010"%char text in
  (NoDup (entry_names lines) ↔ ∃ m, parse_remote_text text = Ok m)
  ∧ (∀ e, parse_remote_text text = Raise e → e = AssertionError).
Proof.
  intros lines. split; [split|].
  - intros Hnd. apply parse_lines_total; [done|]. intros n _. apply lookup_empty.
  - intros [m Hm]. by apply parse_lines_ok_distinct in Hm as [? _].
  - intros e. apply parse_lines_only_assertion.
Qed.

Lemma parse_succeeds_iff_distinct_witness :
  ∃ m, parse_remote_text sample_manifest = Ok m.
Proof.
  apply (proj1 (proj1 (parse_succeeds_iff_distinct sample_manifest))).
  rewrite sample_manifest_lines.
  apply (bool_decide_unpack _). vm_compute. exact I.
Defined.

Lemma parse_lines_cons_ext l rest rest' root models :
  (∀ r m, parse_lines rest r m = parse_lines rest' r m) →
  parse_lines (l :: rest) root models = parse_lines (l :: rest') root models.
Proof.
  intros Hext. destruct (classify (PyStr.strip l)) as [|p|n] eqn:Hc.
  - by rewrite !(parse_lines_comment _ _ _ _ Hc).
  - by rewrite !(parse_lines_root _ _ _ _ _ Hc).
  - rewrite !(parse_lines_entry _ _ _ _ _ Hc). by case_decide.
Qed.

Lemma parse_lines_skip_comment pre raw post : ∀ root models,
  classify (PyStr.strip raw) = Comment →
  parse_lines (pre ++ raw :: post) root models = parse_lines (pre ++ post) root models.
Proof.
  induction pre as [|l pre IH]; intros root models Hc; simpl app.
  - by apply parse_lines_comment.
  - apply parse_lines_cons_ext. intros r m. by apply IH.
Qed.

(** X2: a comment line changes nothing.  Two manifests whose lines differ
    only by one line that is a comment (its first character after leading
    whitespace is '#') parse to the same result, catalog or exception. *)
Theorem comment_line_is_ignored (text text' : string) (pre post : list string) (raw : string) :
  PyStr.split "010"%char text = pre ++ raw :: post →
  PyStr.split "010"%char text' = pre ++ post →
  PyStr.startswith "#" (PyStr.strip raw) = true →
  parse_remote_text text = parse_remote_text text'.
Proof.
  intros Ht Ht' Hc. unfold parse_remote_text. rewrite Ht, Ht'.
  apply parse_lines_skip_comment. unfold classify. by rewrite Hc.
Qed.

Lemma comment_line_is_ignored_witness :
  parse_remote_text ("root: mdx/" +:+ nl +:+ "  # staging" +:+ nl +:+ "abcd1234-v1.th")
  = parse_remote_text ("root: mdx/" +:+ nl +:+ "abcd1234-v1.th").
Proof.
  apply (comment_line_is_ignored _ _ ["root: mdx/"] ["abcd1234-v1.th"] "  # staging");
    vm_compute; reflexivity.
Defined.

Lemma parse_lines_strip_ext l1 : ∀ l2 root models,
  PyStr.strip <$> l1 = PyStr.strip <$> l2 →
  parse_lines l1 root models = parse_lines l2 root models.
Proof.
  induction l1 as [|a l1 IH]; intros [|b l2] root models Heq; try done.
  injection Heq as Hab Hrest.
  transitivity (parse_lines (a :: l2) root models).
  - apply parse_lines_cons_ext. intros r m. by apply IH.
  - simpl. by rewrite Hab.
Qed.

(** X3: the parser sees a line only through its stripped form.  Two
    manifests whose lines agree after stripping leading and trailing
    whitespace parse to the same result. *)
Theorem padding_is_ignored (text text' : string) :
  PyStr.strip <$> PyStr.split "010"%char text = PyStr.strip <$> PyStr.split "010"%char text' →
  parse_remote_text text = parse_remote_text text'.
Proof. intros Heq. by apply parse_lines_strip_ext. Qed.

Lemma padding_is_ignored_witness :
  parse_remote_text ("  root: mdx/ " +:+ nl +:+ String "009"%char "abcd1234-v1.th ")
  = parse_remote_text ("root: mdx/" +:+ nl +:+ "abcd1234-v1.th").
Proof. apply padding_is_ignored. vm_compute. reflexivity. Defined.

Lemma before_first_no_sep sep s :
  sep ∉ String.list_ascii_of_string (before_first sep s).
Proof.
  induction s as [|a s IH]; simpl; [apply not_elem_of_nil|].
  case_decide as Ha; simpl; [apply not_elem_of_nil|].
  intros [->|?]%elem_of_cons; done.
Qed.

Lemma parse_lines_values lines : ∀ root models m k v,
  parse_lines lines root models = Ok m → m !! k = Some v →
  models !! k = Some v
  ∨ ∃ p line, v = ROOT_URL +:+ p +:+ line ∧ before_first "-" line = k.
Proof.
  induction lines as [|l rest IH]; intros root models m k v Hm Hk.
  - left. by simplify_eq/=.
  - destruct (classify (PyStr.strip l)) as [|p|n] eqn:Hc.
    + rewrite (parse_lines_comment _ _ _ _ Hc) in Hm. by eapply IH.
    + rewrite (parse_lines_root _ _ _ _ _ Hc) in Hm. by eapply IH.
    + rewrite (parse_lines_entry _ _ _ _ _ Hc) in Hm. case_decide; [done|].
      destruct (IH _ _ _ _ _ Hm Hk) as [Hin|Hshape]; [|by right].
      apply lookup_insert_Some in Hin as [[<- <-]|[_ Hin]]; [|by left].
      right. eexists _, _. split; [done|].
      unfold classify in Hc.
      destruct (PyStr.startswith "#" _); [done|].
      destruct (PyStr.startswith "root:" _); [done|]. by injection Hc.
Qed.

(** X4: in a catalog that the parser returns, no key contains '-', and
    every value is [ROOT_URL] followed by a path prefix and a file name whose
    portion before the first '-' is the key: every artifact lies under the
    fixed root, and the key can be read back from the file name. *)
Theorem catalog_entries_shape (text : string) (m : gmap string string) (k v : string) :
  parse_remote_text text = Ok m →
  m !! k = Some v →
  ("-"%char ∉ String.list_ascii_of_string k)
  ∧ ∃ p line, v = ROOT_URL +:+ p +:+ line ∧ before_first "-" line = k.
Proof.
  intros Hm Hk.
  destruct (parse_lines_values _ _ _ _ _ _ Hm Hk) as [Hin|(p & line & -> & <-)].
  - by rewrite lookup_empty in Hin.
  - split; [apply before_first_no_sep|]. by eexists _, _.
Qed.

Lemma sample_manifest_parses : ∃ m, parse_remote_text sample_manifest = Ok m.
Proof.
  apply parse_lines_total; [|intros n _; apply lookup_empty].
  rewrite sample_manifest_lines. apply (bool_decide_unpack _). vm_compute. exact I.
Qed.

Lemma catalog_entries_shape_witness :
  ∃ m, parse_remote_text sample_manifest = Ok m
       ∧ ("-"%char ∉ String.list_ascii_of_string "abcd1234")
       ∧ ∃ p line, ROOT_URL +:+ "mdx/" +:+ "abcd1234-v1.th" = ROOT_URL +:+ p +:+ line
                   ∧ before_first "-" line = "abcd1234".
Proof.
  destruct sample_manifest_parses as [m Hm].
  exists m. split; [exact Hm|].
  apply (catalog_entries_shape sample_manifest m "abcd1234" _ Hm).
  pose proof (parse_lines_lookup _ _ _ _ 1%nat "abcd1234-v1.th" "abcd1234" Hm) as H.
  rewrite sample_manifest_lines in H. apply H; vm_compute; reflexivity.
Defined.

(** X5: blank lines are entry lines with the empty short name, so a
    manifest with two lines that are empty or all whitespace cannot be
    parsed: the assertion fails. *)
Theorem two_blank_lines_are_fatal (text : string) (i j : nat) (ri rj : string) :
  i ≠ j →
  PyStr.split "010"%char text !! i = Some ri →
  PyStr.split "010"%char text !! j = Some rj →
  PyStr.strip ri = "" →
  PyStr.strip rj = "" →
  parse_remote_text text = Raise AssertionError.
Proof.
  intros Hij Hi Hj Hbi Hbj. unfold parse_remote_text.
  assert (Hblank : ∀ r, PyStr.strip r = "" → classify (PyStr.strip r) = Entry "")
    by (by intros r ->).
  destruct (decide (i < j)%nat).
  - eapply (parse_lines_repeat _ _ _ i j); eauto.
  - eapply (parse_lines_repeat _ _ _ j i); eauto. lia.
Qed.

Lemma two_blank_lines_are_fatal_witness :
  parse_remote_text ("abcd1234-v1.th" +:+ nl +:+ "  " +:+ nl) = Raise AssertionError.
Proof.
  apply (two_blank_lines_are_fatal _ 1 2 "  " ""); [lia|vm_compute; reflexivity..].
Defined.

(** ** [_load_state] *)

Lemma alter_keeps {B} (g : model → B) (f : model → model) (i j : nat) (l : list model) :
  (∀ m, g (f m) = g m) → g <$> alter f i l !! j = g <$> l !! j.
Proof.
  intros Hg. destruct (decide (i = j)) as [->|Hij].
  - rewrite list_lookup_alter_eq. destruct (l !! j); simpl; by rewrite ?Hg.
  - by rewrite list_lookup_alter_ne.
Qed.

(** X6: when [_load_state] raises, no model and no quantizer has been
    touched.  Either the name is not in the table, the exception is
    [KeyError(name)] and nothing at all has happened, or the download failed
    and the only trace is the request for the URL of that name. *)
Theorem load_state_failure_is_clean
    (c : collaborators) (name : string) (id : nat) (q : option nat) (w w' : world) (e : exn) :
  _load_state c name id q w = (Raise e, w') →
  heap w' = heap w ∧ quantizers w' = quantizers w
  ∧ ((e = KeyError name ∧ is_pretrained name = false ∧ w' = w)
     ∨ (e = TransportError
        ∧ ∃ url, get_url name = Ok url ∧ load_state_dict_from_url c url = None
                 ∧ log w' = log w ++ [E_download url])).
Proof.
  rewrite load_state_run.
  destruct (get_url name) as [url|e0] eqn:Hurl.
  - destruct (load_state_dict_from_url c url) as [s|] eqn:Hs.
    + by destruct q.
    + intros [= <- <-]. cbn. split; [done|]. split; [done|]. right. eauto.
  - intros [= <- <-]. split; [done|]. split; [done|]. left.
    unfold get_url, get_url_in in Hurl. unfold is_pretrained.
    destruct (PRETRAINED_MODELS !! name) eqn:Hl; [done|].
    injection Hurl as <-. split; [done|]. split; [|by destruct w].
    apply bool_decide_eq_false. by intros [? ?].
Qed.

Lemma load_state_failure_is_clean_witness :
  _load_state sample_collaborators "mdx_extra_q" 0 None empty_world
  = (Raise (KeyError "mdx_extra_q"), empty_world).
Proof.
  destruct (_load_state sample_collaborators "mdx_extra_q" 0 None empty_world)
    as [[u|e] w'] eqn:Hrun; [by vm_compute in Hrun|].
  destruct (load_state_failure_is_clean _ _ _ _ _ _ _ Hrun)
    as (_ & _ & [(-> & _ & ->)|(_ & url & Hurl & _)]); [reflexivity|].
  by vm_compute in Hurl.
Defined.

(** X7: when [_load_state] returns, the state it applied is the one that
    the download service gave for the URL of the name, the target model holds
    it, and nothing else about the store has changed: the number of models,
    the architecture and the mode of every model, the weights of every other
    model, and the hooks of every model that is not the quantizer's. *)
Theorem load_state_success_frame
    (c : collaborators) (name : string) (id : nat) (q : option nat) (w w' : world) :
  _load_state c name id q w = (Ok tt, w') →
  ∃ url s,
    get_url name = Ok url ∧ load_state_dict_from_url c url = Some s
    ∧ length (heap w') = length (heap w)
    ∧ quantizers w' = quantizers w
    ∧ (weights <$> heap w' !! id = (λ _, Some s) <$> heap w !! id)
    ∧ (∀ j, j ≠ id → weights <$> heap w' !! j = weights <$> heap w !! j)
    ∧ (∀ j, arch <$> heap w' !! j = arch <$> heap w !! j)
    ∧ (∀ j, training <$> heap w' !! j = training <$> heap w !! j)
    ∧ (∀ j, (∀ qz z, q = Some qz → quantizers w !! qz = Some z → q_model z ≠ j) →
            hooks <$> heap w' !! j = hooks <$> heap w !! j).
Proof.
  rewrite load_state_run.
  destruct (get_url name) as [url|e0] eqn:Hurl; [|done].
  destruct (load_state_dict_from_url c url) as [s|] eqn:Hs; [|done].
  cbn zeta. intros Hrun. exists url, s. split; [done|]. split; [done|].
  assert (Hweights : weights <$> alter (set_weights s) id (heap w) !! id
                     = (λ _, Some s) <$> heap w !! id).
  { rewrite list_lookup_alter_eq. by destruct (heap w !! id). }
  destruct q as [qz|]; injection Hrun as <-; cbn [heap quantizers log].
  - destruct (quantizers w !! qz) as [z|] eqn:Hz.
    + rewrite !length_alter. repeat split; try done.
      * by rewrite (alter_keeps weights).
      * intros j Hj. rewrite (alter_keeps weights) by done.
        by rewrite list_lookup_alter_ne.
      * intros j. by rewrite !(alter_keeps arch).
      * intros j. by rewrite !(alter_keeps training).
      * intros j Hj. rewrite list_lookup_alter_ne by (by eapply Hj).
        by rewrite (alter_keeps hooks).
    + rewrite !length_alter. repeat split; try done.
      * intros j Hj. by rewrite list_lookup_alter_ne.
      * intros j. by rewrite !(alter_keeps arch).
      * intros j. by rewrite !(alter_keeps training).
      * intros j _. by rewrite (alter_keeps hooks).
  - rewrite !length_alter. repeat split; try done.
    + intros j Hj. by rewrite list_lookup_alter_ne.
    + intros j. by rewrite !(alter_keeps arch).
    + intros j. by rewrite !(alter_keeps training).
    + intros j _. by rewrite (alter_keeps hooks).
Qed.

Lemma load_state_success_frame_witness :
  ∃ url s,
    get_url "tasnet" = Ok url ∧ load_state_dict_from_url sample_collaborators url = Some s
    ∧ payload s = "https://dl.fbaipublicfiles.com/demucs/v3.0/tasnet-beb46fac.th".
Proof.
  destruct (_load_state sample_collaborators "tasnet" 0 None
              (World [Model (ConvTasNet 10) SOURCES true None []] [] []))
    as [[[]|e] w'] eqn:Hrun; [|by vm_compute in Hrun].
  destruct (load_state_success_frame _ _ _ _ _ _ Hrun) as (url & s & Hurl & Hs & _).
  exists url, s. split; [exact Hurl|]. split; [exact Hs|].
  vm_compute in Hurl. injection Hurl as <-.
  vm_compute in Hs. by injection Hs as <-.
Defined.

(** ** The builders, run to the end *)

Lemma load_state_at_last c name h x qs l q :
  (∀ qz, q = Some qz → ∃ z, qs !! qz = Some z ∧ q_model z = length h) →
  _load_state c name (length h) q (World (h ++ [x]) qs l) =
    match get_url name with
    | Raise e => (Raise e, World (h ++ [x]) qs l)
    | Ok url =>
        match load_state_dict_from_url c url with
        | None => (Raise TransportError, World (h ++ [x]) qs (l ++ [E_download url]))
        | Some s =>
            (Ok tt,
             World (h ++ [match q with
                          | Some qz => remove_hook qz (set_weights s x)
                          | None => set_weights s x
                          end])
               qs
               (l ++ E_download url :: E_set_state (length h) q
                  :: match q with Some qz => [E_detach qz] | None => [] end))
        end
    end.
Proof.
  intros Hq. rewrite load_state_run. cbn [heap quantizers log].
  destruct (get_url name) as [url|e]; [|done].
  destruct (load_state_dict_from_url c url) as [s|]; [|done].
  cbn zeta. destruct q as [qz|]; [|by rewrite alter_last].
  destruct (Hq qz eq_refl) as (z & -> & ->). by rewrite !alter_last.
Qed.

Lemma remove_added_hook q s a srcs :
  remove_hook q (set_weights s (add_hook q (Model a srcs true None [])))
  = set_weights s (Model a srcs true None []).
Proof.
  unfold remove_hook, set_weights, add_hook. cbn [arch sources training weights hooks].
  rewrite filter_cons_False by (intros Hn; by apply Hn). by rewrite filter_nil.
Qed.

Lemma invoke_run c b w :
  builder_valid b = true → invoke c b w = builder_outcome c b w.
Proof.
  intros Hvalid. unfold builder_outcome.
  destruct b as [p e q h ch|p e|p]; cbn [invoke builder_pretrained builder_arch
    builder_artifact builder_quantized builder_valid] in *.
  - destruct p; cbn [negb].
    + apply bool_decide_eq_true in Hvalid.
      rewrite (demucs_pretrained_run _ _ _ _ _ _ Hvalid). cbn zeta.
      destruct q.
      * rewrite load_state_at_last
          by (intros ? [= <-]; eexists; split; [apply lookup_last|done]).
        destruct (get_url _) as [url|?]; [|by rewrite <- !app_assoc].
        destruct (load_state_dict_from_url c url) as [s|]; [|by rewrite <- !app_assoc].
        by rewrite remove_added_hook, <- !app_assoc.
      * rewrite load_state_at_last by done.
        destruct (get_url _) as [url|?]; [|done].
        by destruct (load_state_dict_from_url c url).
    + destruct e, q, h; try discriminate Hvalid. reflexivity.
  - destruct p; cbn [negb orb] in *.
    + unfold tasnet. cbn. unfold bind.
      replace (if e then "tasnet_extra" else "tasnet")
        with (if e then "tasnet_extra" else "tasnet" : string) by done.
      rewrite load_state_at_last by done.
      destruct (get_url _) as [url|?]; [|done].
      by destruct (load_state_dict_from_url c url).
    + destruct e; [discriminate Hvalid|]. reflexivity.
  - rewrite call_demucs_unittest_run. destruct (default true p) eqn:Hp; cbn [negb].
    + unfold Line179.demucs_unittest. cbn. unfold bind.
      rewrite load_state_at_last by done.
      destruct (get_url _) as [url|?]; [|done].
      by destruct (load_state_dict_from_url c url).
    + reflexivity.
Qed.

Lemma invoke_invalid c b w :
  builder_valid b = false →
  ∃ msg, (invoke c b w).1 = Raise (ValueError msg)
         ∧ ((invoke c b w).2 = w
            ∨ (invoke c b w).2
              = World (heap w ++ [Model (builder_arch b) SOURCES true None []])
                  (quantizers w)
                  (log w ++ [E_new_model (length (heap w)) (builder_arch b)])).
Proof.
  intros Hinvalid. destruct b as [p e q h ch|p e|p]; cbn in Hinvalid; [| |done].
  - destruct p.
    + apply bool_decide_eq_false in Hinvalid. eexists. unfold invoke, demucs. cbn.
      rewrite decide_True by lia. cbn. split; [done|]. by right.
    + eexists. unfold invoke, demucs. cbn.
      apply negb_false_iff in Hinvalid. rewrite Hinvalid. cbn. split; [done|]. by left.
  - destruct p, e; try discriminate Hinvalid. eexists. split; [done|]. by left.
Qed.

Lemma extends_refl w : extends w w.
Proof. unfold extends. repeat split; try done. lia. Qed.

Lemma extends_one w m qs' l' :
  quantizers w `prefix_of` qs' → log w `prefix_of` l' →
  extends w (World (heap w ++ [m]) qs' l').
Proof.
  intros Hq Hl. unfold extends. cbn. repeat split; try done.
  - by eexists.
  - rewrite length_app. simpl. lia.
Qed.

Lemma builder_outcome_extends c b w : extends w (builder_outcome c b w).2.
Proof.
  unfold builder_outcome.
  assert (Hl : ∀ k, log w `prefix_of` log w ++ k) by (intros; by eexists).
  assert (Hq : ∀ k, quantizers w `prefix_of` quantizers w ++ k) by (intros; by eexists).
  destruct (negb (builder_pretrained b)); cbn [snd]; [by apply extends_one|].
  destruct (get_url _) as [url|?]; [destruct (load_state_dict_from_url c url)|];
    destruct (builder_quantized b); cbn [snd]; apply extends_one;
    rewrite <- ?app_assoc; done.
Qed.

(** X8: every builder call leaves what was there alone.  Whatever the flags
    and whatever the outcome, the models, quantizers and log entries that
    existed before the call are unchanged afterwards, and the call adds at
    most one model. *)
Theorem builders_extend_the_world (c : collaborators) (b : builder_call) (w : world) :
  extends w (invoke c b w).2
  ∧ ∀ name, extends w (load_pretrained c name w).2.
Proof.
  assert (Hb : ∀ b', extends w (invoke c b' w).2).
  { intros b'. destruct (builder_valid b') eqn:Hv.
    - rewrite invoke_run by done. apply builder_outcome_extends.
    - destruct (invoke_invalid c b' w Hv) as (msg & _ & [->| ->]);
        [apply extends_refl|apply extends_one; [done|by eexists]]. }
  split; [apply Hb|]. intros name. unfold load_pretrained.
  case_decide; [apply (Hb (to_demucs true false false false 64))|].
  case_decide; [apply (Hb (to_demucs true false false true 48))|].
  case_decide; [apply (Hb (to_demucs true true false false 64))|].
  case_decide; [apply (Hb (to_demucs true false true false 64))|].
  case_decide; [apply (Hb (to_demucs_unittest (Some true)))|].
  case_decide; [apply (Hb (to_tasnet true false))|].
  case_decide; [apply (Hb (to_tasnet true true))|].
  apply extends_refl.
Qed.

(** X9: a builder call that returns hands back a model it has just built:
    its index is new, it has the architecture and the sources of the call, no
    hook is attached to it, it is in training mode and no call of [eval] was
    made, and it holds weights exactly when [pretrained] was set.  Without
    [pretrained] the construction is the only thing that happened. *)
Theorem builders_return_fresh_model
    (c : collaborators) (b : builder_call) (w w' : world) (id : nat) :
  invoke c b w = (Ok id, w') →
  id = length (heap w)
  ∧ (∃ m, heap w' !! id = Some m
          ∧ arch m = builder_arch b ∧ sources m = SOURCES
          ∧ hooks m = [] ∧ training m = true
          ∧ (is_Some (weights m) ↔ builder_pretrained b = true))
  ∧ (∀ k, E_eval k ∉ new_events w w')
  ∧ (builder_pretrained b = false →
     new_events w w' = [E_new_model id (builder_arch b)]).
Proof.
  intros Hrun. destruct (builder_valid b) eqn:Hv.
  2:{ destruct (invoke_invalid c b w Hv) as (msg & Hmsg & _).
      by rewrite Hrun in Hmsg. }
  rewrite invoke_run in Hrun by done. unfold builder_outcome, new_events in *.
  destruct (builder_pretrained b); cbn [negb] in Hrun.
  - destruct (get_url _) as [url|?]; [|done].
    destruct (load_state_dict_from_url c url) as [s|]; [|done].
    injection Hrun as <- <-. cbn [heap log]. split; [done|]. split; [|split; [|done]].
    + eexists. split; [apply lookup_last|]. cbn. repeat split; eauto.
    + intros k. destruct (builder_quantized b);
        rewrite <- ?app_assoc, drop_app_length; cbn [app];
        rewrite !elem_of_cons, elem_of_nil; intuition discriminate.
  - injection Hrun as <- <-. cbn [heap log]. split; [done|]. split; [|split].
    + eexists. split; [apply lookup_last|]. cbn. repeat split; done.
    + intros k. rewrite drop_app_length, !elem_of_cons, elem_of_nil.
      intuition discriminate.
    + intros _. by rewrite drop_app_length.
Qed.

Lemma builders_return_fresh_model_witness :
  ∃ m, heap (tasnet sample_collaborators false false empty_world).2 !! 0%nat = Some m
       ∧ arch m = ConvTasNet 10 ∧ sources m = SOURCES
       ∧ hooks m = [] ∧ training m = true
       ∧ (is_Some (weights m) ↔ false = true).
Proof.
  apply (builders_return_fresh_model sample_collaborators (to_tasnet false false)
           empty_world _ 0%nat).
  reflexivity.
Defined.

(** ** The legacy table and [load_pretrained] *)

Lemma load_pretrained_known c name :
  name ∈ legacy_names →
  ∃ b, load_pretrained c name = invoke c b
       ∧ builder_valid b = true ∧ builder_pretrained b = true
       ∧ builder_artifact b = name.
Proof.
  unfold legacy_names. rewrite !elem_of_cons, elem_of_nil.
  intros [->|[->|[->|[->|[->|[->|[->|[]]]]]]]].
  - by exists (to_demucs true false false false 64).
  - by exists (to_demucs true false false true 48).
  - by exists (to_demucs true true false false 64).
  - by exists (to_demucs true false true false 64).
  - by exists (to_tasnet true false).
  - by exists (to_tasnet true true).
  - by exists (to_demucs_unittest (Some true)).
Qed.

Lemma builder_outcome_grows c b w :
  length (heap (builder_outcome c b w).2) = S (length (heap w)).
Proof.
  unfold builder_outcome.
  destruct (negb (builder_pretrained b)); [|destruct (get_url _) as [url|?];
    [destruct (load_state_dict_from_url c url)|]];
    cbn [snd heap]; rewrite length_app; simpl; lia.
Qed.

Lemma is_pretrained_names name : is_pretrained name = true ↔ name ∈ legacy_names.
Proof.
  unfold is_pretrained. rewrite bool_decide_eq_true. apply pretrained_lookup.
Qed.

Lemma get_url_ok_iff name : is_pretrained name = true ↔ ∃ url, get_url name = Ok url.
Proof.
  unfold is_pretrained, get_url, get_url_in. rewrite bool_decide_eq_true.
  destruct (PRETRAINED_MODELS !! name) as [sig|]; split; eauto.
  - by intros [? ?].
  - by intros [? ?].
Qed.

(** X10: the table, the URL builder and the dispatcher agree on the names.
    [is_pretrained(name)] holds for the seven names of the table and for no
    other; [get_url(name)] returns a URL exactly for those and raises
    [KeyError(name)] for every other name; [load_pretrained(name)] raises its
    [ValueError], touching nothing, exactly for the names that are not
    pretrained. *)
Theorem legacy_names_agree (c : collaborators) (name : string) :
  (is_pretrained name = true ↔ name ∈ legacy_names)
  ∧ (is_pretrained name = true ↔ ∃ url, get_url name = Ok url)
  ∧ (is_pretrained name = false ↔ get_url name = Raise (KeyError name))
  ∧ (is_pretrained name = false ↔
     ∀ w, load_pretrained c name w
          = (Raise (ValueError ("Invalid pretrained name " +:+ name)), w)).
Proof.
  pose proof (is_pretrained_names name) as Hnames.
  pose proof (get_url_ok_iff name) as Hurl.
  split; [done|]. split; [done|]. split; [split|split].
  - intros Hno. apply get_url_unknown. rewrite <- Hnames. by rewrite Hno.
  - intros Hraise. destruct (is_pretrained name); [|done].
    destruct (proj1 Hurl eq_refl) as [url Hok]. by rewrite Hok in Hraise.
  - intros Hno w. unfold load_pretrained.
    assert (Hout : name ∉ legacy_names) by (rewrite <- Hnames; by rewrite Hno).
    unfold legacy_names in Hout. rewrite !elem_of_cons, elem_of_nil in Hout.
    repeat (case_decide; [exfalso; apply Hout; auto 10|]). done.
  - intros Hraise. destruct (is_pretrained name) eqn:Hyes; [|done].
    destruct (load_pretrained_known c name (proj1 Hnames eq_refl)) as (b & Hb & Hv & _).
    specialize (Hraise empty_world). rewrite Hb, invoke_run in Hraise by done.
    pose proof (builder_outcome_grows c b empty_world) as Hgrow.
    by rewrite Hraise in Hgrow.
Qed.

Lemma legacy_names_agree_witness :
  get_url "mdx_extra_q" = Raise (KeyError "mdx_extra_q")
  ∧ ∃ url, get_url "tasnet_extra" = Ok url.
Proof.
  split.
  - apply (proj1 (proj1 (proj2 (proj2 (legacy_names_agree sample_collaborators "mdx_extra_q"))))).
    reflexivity.
  - apply (proj1 (proj1 (proj2 (legacy_names_agree sample_collaborators "tasnet_extra")))).
    reflexivity.
Defined.

Lemma downloads_app l k : downloads (l ++ k) = downloads l ++ downloads k.
Proof. apply omap_app. Qed.

Lemma builder_outcome_downloads c b w :
  downloads (new_events w (builder_outcome c b w).2) =
    if builder_pretrained b
    then match get_url (builder_artifact b) with Ok url => [url] | Raise _ => [] end
    else [].
Proof.
  unfold builder_outcome, new_events.
  destruct (builder_pretrained b); cbn [negb snd log];
    [|by rewrite drop_app_length].
  destruct (get_url _) as [url|?]; [destruct (load_state_dict_from_url c url)|];
    destruct (builder_quantized b); cbn [snd log];
    by rewrite <- ?app_assoc, drop_app_length.
Qed.

(** X11: [load_pretrained(name)] asks the download service for exactly one
    artifact, the one at [get_url(name)].  When the state arrives, the model
    returned is new, holds that state and has no hook attached; when it does
    not, the call raises and returns no model. *)
Theorem load_pretrained_fetches_own_url
    (c : collaborators) (name url : string) (w : world) :
  get_url name = Ok url →
  let run := load_pretrained c name w in
  downloads (new_events w run.2) = [url]
  ∧ match load_state_dict_from_url c url with
    | Some s =>
        run.1 = Ok (length (heap w))
        ∧ ∃ m, heap run.2 !! length (heap w) = Some m
               ∧ weights m = Some s ∧ hooks m = []
    | None => run.1 = Raise TransportError
    end.
Proof.
  intros Hurl run.
  assert (Hname : name ∈ legacy_names).
  { apply is_pretrained_names, get_url_ok_iff. eauto. }
  destruct (load_pretrained_known c name Hname) as (b & Hb & Hv & Hp & Ha).
  subst run. rewrite Hb, invoke_run by done. split.
  - by rewrite builder_outcome_downloads, Hp, Ha, Hurl.
  - unfold builder_outcome. rewrite Hp, Ha, Hurl. cbn [negb].
    destruct (load_state_dict_from_url c url) as [s|]; [|done].
    cbn [fst snd heap]. split; [done|].
    eexists. split; [apply lookup_last|]. done.
Qed.

Lemma load_pretrained_fetches_own_url_witness :
  downloads (new_events empty_world (load_pretrained sample_collaborators "tasnet" empty_world).2)
  = ["https://dl.fbaipublicfiles.com/demucs/v3.0/tasnet-beb46fac.th"].
Proof.
  apply (load_pretrained_fetches_own_url sample_collaborators "tasnet" _ empty_world).
  reflexivity.
Defined.

(** ** [demucs] *)

Lemma artifact_name_default extra quantized hq :
  flag_sum extra quantized hq ≤ 1 →
  artifact_name 64 extra quantized hq ∈ legacy_names ↔ hq = false.
Proof.
  intros Hsum. unfold legacy_names.
  destruct extra, quantized, hq; try (by vm_compute in Hsum);
    match goal with
    | |- artifact_name ?ch ?e ?q ?h ∈ _ ↔ _ =>
        let n := eval vm_compute in (artifact_name ch e q h) in
        change (artifact_name ch e q h) with n
    end;
    rewrite !elem_of_cons, elem_of_nil; split; auto 10; intuition discriminate.
Qed.

(** X12: which calls of [demucs(pretrained=True, ...)] with at most one
    flag find their artifact.  The derived name is in the table exactly when
    [channels] is 64 without [hq], or 48 with [hq]; so [hq] with the default
    channel count ends in [KeyError('demucs_hq')].  When the name is missing
    the call raises that [KeyError] and downloads nothing; when it is there
    the call asks for the URL of that name and for nothing else. *)
Theorem demucs_artifact_exists_iff
    (c : collaborators) (extra quantized hq : bool) (channels : Z) (w : world) :
  flag_sum extra quantized hq ≤ 1 →
  let name := artifact_name channels extra quantized hq in
  let run := demucs c true extra quantized hq channels w in
  (is_pretrained name = true ↔ (channels = 64 ∧ hq = false) ∨ (channels = 48 ∧ hq = true))
  ∧ (is_pretrained name = false →
     run.1 = Raise (KeyError name) ∧ downloads (new_events w run.2) = [])
  ∧ (is_pretrained name = true →
     ∃ url, get_url name = Ok url ∧ downloads (new_events w run.2) = [url]
            ∧ run.1 ≠ Raise (KeyError name)).
Proof.
  intros Hsum name run.
  assert (Hrun : run = builder_outcome c (to_demucs true extra quantized hq channels) w).
  { subst run. rewrite <- invoke_run; [done|]. by apply bool_decide_eq_true. }
  split; [|split].
  - rewrite is_pretrained_names. subst name.
    destruct (decide (channels = 64)) as [->|Hch].
    + rewrite artifact_name_default by done. intuition lia.
    + rewrite artifact_name_known by done. intuition lia.
  - intros Hno. rewrite Hrun.
    assert (Hurl : get_url name = Raise (KeyError name)).
    { apply get_url_unknown. rewrite <- is_pretrained_names. by rewrite Hno. }
    split.
    + unfold builder_outcome. cbn [builder_pretrained builder_artifact negb].
      fold name. by rewrite Hurl.
    + rewrite builder_outcome_downloads. cbn [builder_pretrained builder_artifact].
      fold name. by rewrite Hurl.
  - intros Hyes.
    destruct (proj1 (get_url_ok_iff name) Hyes) as [url Hurl]. exists url. split; [done|]. rewrite Hrun. split.
    + rewrite builder_outcome_downloads. cbn [builder_pretrained builder_artifact].
      fold name. by rewrite Hurl.
    + unfold builder_outcome. cbn [builder_pretrained builder_artifact negb].
      fold name. rewrite Hurl. by destruct (load_state_dict_from_url c url).
Qed.

Lemma demucs_artifact_exists_iff_witness :
  (demucs sample_collaborators true false false true 64 empty_world).1
  = Raise (KeyError "demucs_hq").
Proof.
  apply (demucs_artifact_exists_iff sample_collaborators false false true 64 empty_world).
  - by vm_compute.
  - reflexivity.
Defined.

(** ** [get_model], outside the "demucs_unittest" path *)

Lemma bind_run {A B} (m : M A) (k : A → M B) w r w1 :
  m w = (r, w1) →
  bind m k w = match r with Ok a => k a w1 | Raise e => (Raise e, w1) end.
Proof. intros Hm. unfold bind. by rewrite Hm. Qed.

Lemma get_model_run c name repo w :
  name ≠ "demucs_unittest" →
  get_model c name repo w =
    match repo with
    | Some dir =>
        let w1 := World (heap w) (quantizers w) (log w ++ [E_is_dir dir]) in
        if is_dir c dir then resolved c (composed_repo c (inl dir)) name w1
        else (Raise SystemExit, w1)
    | None =>
        let w1 := World (heap w) (quantizers w)
                    (log w ++ [E_read_text (manifest_path c)]) in
        match read_text c (manifest_path c) with
        | None => (Raise OSError, w1)
        | Some text =>
            match parse_remote_text text with
            | Raise e => (Raise e, w1)
            | Ok models => resolved c (composed_repo c (inr models)) name w1
            end
        end
    end.
Proof.
  intros Hname. unfold get_model. rewrite decide_False by done.
  assert (Hres : ∀ r w1,
    (model <- any_repo_get_model c r name ;; eval model ;; ret model) w1
    = resolved c r name w1).
  { intros r w1. unfold resolved, any_repo_get_model, bind, lift, emit, alloc_model,
      eval, update_model, ret, bind, emit. cbn.
    destruct (repo_get_model c r name) as [m|e]; [|done]. cbn.
    by rewrite alter_last, <- !app_assoc. }
  destruct repo as [dir|].
  - destruct (is_dir c dir) eqn:Hdir.
    + erewrite bind_run
        by (unfold path_is_dir, fatal, bind, emit, ret, raise; cbn; rewrite Hdir; reflexivity).
      apply Hres.
    + erewrite bind_run
        by (unfold path_is_dir, fatal, bind, emit, ret, raise; cbn; rewrite Hdir; reflexivity).
      reflexivity.
  - fold (manifest_path c). destruct (read_text c (manifest_path c)) as [text|] eqn:Hread.
    + destruct (parse_remote_text text) as [models|e] eqn:Hparse.
      * erewrite bind_run
          by (unfold _parse_remote_files, path_read_text, bind, emit, lift, ret, raise;
              cbn; rewrite Hread, Hparse; reflexivity).
        apply Hres.
      * erewrite bind_run
          by (unfold _parse_remote_files, path_read_text, bind, emit, lift, ret, raise;
              cbn; rewrite Hread, Hparse; reflexivity).
        reflexivity.
    + erewrite bind_run
        by (unfold _parse_remote_files, path_read_text, bind, emit, lift, ret, raise;
            cbn; rewrite Hread; reflexivity).
      reflexivity.
Qed.

(** X13: a local repository that is not a directory is fatal at once.
    [get_model] exits after the [is_dir] test: the manifest is not read and
    no repository is asked for the name. *)
Theorem missing_repo_is_fatal (c : collaborators) (name dir : string) (w : world) :
  name ≠ "demucs_unittest" →
  is_dir c dir = false →
  get_model c name (Some dir) w
    = (Raise SystemExit, World (heap w) (quantizers w) (log w ++ [E_is_dir dir])).
Proof. intros Hname Hdir. rewrite get_model_run by done. cbn zeta. by rewrite Hdir. Qed.

Lemma missing_repo_is_fatal_witness :
  get_model (Collaborators "/opt/demucs" (λ _, None) (λ _, false)
               (λ _ _, Raise ModelLoadingError) (λ _, None))
    "mdx_extra_q" (Some "/no/such/dir") empty_world
  = (Raise SystemExit, World [] [] [E_is_dir "/no/such/dir"]).
Proof. apply missing_repo_is_fatal; [discriminate|reflexivity]. Defined.

(** X14: a manifest in which a short name repeats stops [get_model] before
    any repository is asked: with no local repository, the call reads the
    manifest, raises the assertion error of the parser, and has done nothing
    else. *)
Theorem corrupt_manifest_stops_get_model
    (c : collaborators) (name text : string) (w : world) :
  name ≠ "demucs_unittest" →
  read_text c (manifest_path c) = Some text →
  ¬ NoDup (entry_names (PyStr.split "010"%char text)) →
  get_model c name None w
    = (Raise AssertionError,
       World (heap w) (quantizers w) (log w ++ [E_read_text (manifest_path c)])).
Proof.
  intros Hname Hread Hdup. rewrite get_model_run by done. cbn zeta. rewrite Hread.
  destruct (parse_remote_text text) as [models|e] eqn:Hparse.
  - destruct Hdup. by apply parse_lines_ok_distinct in Hparse as [? _].
  - by apply parse_lines_only_assertion in Hparse as ->.
Qed.

Lemma corrupt_manifest_stops_get_model_witness :
  get_model (Collaborators "/opt/demucs"
               (λ _, Some ("abcd1234-v1.th" +:+ nl +:+ "abcd1234-v2.th"))
               (λ _, true) (λ _ _, Raise ModelLoadingError) (λ _, None))
    "abcd1234" None empty_world
  = (Raise AssertionError,
     World [] [] [E_read_text "/opt/demucs/remote/files.txt"]).
Proof.
  refine (corrupt_manifest_stops_get_model
            (Collaborators "/opt/demucs"
               (λ _, Some ("abcd1234-v1.th" +:+ nl +:+ "abcd1234-v2.th"))
               (λ _, true) (λ _ _, Raise ModelLoadingError) (λ _, None))
            "abcd1234" ("abcd1234-v1.th" +:+ nl +:+ "abcd1234-v2.th") empty_world _ _ _);
    [discriminate|reflexivity|].
  intros Hnd. vm_compute in Hnd. apply NoDup_cons in Hnd as [Hin _].
  apply Hin. apply list_elem_of_here.
Defined.

(** X15: when [get_model] raises, it has built nothing: the models and the
    quantizers are as they were, no call of [eval] was made, and nothing was
    asked of the download service by this module. *)
Theorem get_model_failure_is_clean
    (c : collaborators) (name : string) (repo : option string) (w w' : world) (e : exn) :
  name ≠ "demucs_unittest" →
  get_model c name repo w = (Raise e, w') →
  heap w' = heap w ∧ quantizers w' = quantizers w
  ∧ (∀ k, E_eval k ∉ new_events w w')
  ∧ downloads (new_events w w') = [].
Proof.
  intros Hname. rewrite get_model_run by done.
  assert (Hres : ∀ r l,
    resolved c r name (World (heap w) (quantizers w) (log w ++ l)) = (Raise e, w') →
    (∀ k, E_eval k ∉ l) → downloads l = [] →
    heap w' = heap w ∧ quantizers w' = quantizers w
    ∧ (∀ k, E_eval k ∉ new_events w w') ∧ downloads (new_events w w') = []).
  { intros r l. unfold resolved, new_events.
    destruct (repo_get_model c r name) as [m|e']; [done|].
    intros [= <- <-] Hno Hdl. cbn [heap quantizers log].
    rewrite <- app_assoc, drop_app_length. repeat split; try done.
    - intros k [?|[=]%list_elem_of_singleton]%elem_of_app. by eapply Hno.
    - rewrite downloads_app, Hdl. done. }
  assert (Hstop : ∀ ev,
    (∀ k, ev ≠ E_eval k) → downloads [ev] = [] →
    w' = World (heap w) (quantizers w) (log w ++ [ev]) →
    heap w' = heap w ∧ quantizers w' = quantizers w
    ∧ (∀ k, E_eval k ∉ new_events w w') ∧ downloads (new_events w w') = []).
  { intros ev Hev Hdl ->. unfold new_events. cbn [heap quantizers log].
    rewrite drop_app_length. repeat split; try done.
    intros k ?%list_elem_of_singleton. by eapply Hev. }
  destruct repo as [dir|]; cbn zeta.
  - destruct (is_dir c dir).
    + intros Hrun. eapply Hres; [exact Hrun| |done].
      by intros k [=]%list_elem_of_singleton.
    + intros [= _ Hw]. symmetry in Hw. by refine (Hstop _ _ _ Hw).
  - destruct (read_text c _) as [text|].
    + destruct (parse_remote_text text) as [models|e'].
      * intros Hrun. eapply Hres; [exact Hrun| |done].
        by intros k [=]%list_elem_of_singleton.
      * intros [= _ Hw]. symmetry in Hw. by refine (Hstop _ _ _ Hw).
    + intros [= _ Hw]. symmetry in Hw. by refine (Hstop _ _ _ Hw).
Qed.

Lemma get_model_failure_is_clean_witness :
  heap (get_model sample_collaborators "no_such_model" None empty_world).2 = [].
Proof.
  destruct (get_model sample_collaborators "no_such_model" None empty_world)
    as [[id|e] w'] eqn:Hrun; [by vm_compute in Hrun|].
  assert (Hname : "no_such_model" ≠ "demucs_unittest") by discriminate.
  apply (get_model_failure_is_clean _ _ _ _ _ _ Hname Hrun).
Defined.

(** X16: when [get_model] returns, the model is the one that the composed
    repository gave for the name, new in the store and changed in nothing
    but its mode.  With a local directory the repositories are built on that
    directory and the manifest is not read; with none they are built on the
    catalog parsed from the manifest and no directory is tested.  The events
    of the run are the source check, the lookup and the [eval], in that
    order. *)
Theorem get_model_returns_repository_model
    (c : collaborators) (name : string) (repo : option string) (w w' : world) (id : nat) :
  name ≠ "demucs_unittest" →
  get_model c name repo w = (Ok id, w') →
  id = length (heap w)
  ∧ quantizers w' = quantizers w
  ∧ ∃ source m,
      repo_get_model c (composed_repo c source) name = Ok m
      ∧ heap w' = heap w ++ [set_training false m]
      ∧ match repo, source with
        | Some dir, inl dir' =>
            dir' = dir ∧ is_dir c dir = true
            ∧ new_events w w' = [E_is_dir dir; E_repo_get_model name; E_eval id]
        | None, inr models =>
            (∃ text, read_text c (manifest_path c) = Some text
                     ∧ parse_remote_text text = Ok models)
            ∧ new_events w w'
              = [E_read_text (manifest_path c); E_repo_get_model name; E_eval id]
        | _, _ => False
        end.
Proof.
  intros Hname. rewrite get_model_run by done.
  assert (Hres : ∀ source ev,
    resolved c (composed_repo c source) name
      (World (heap w) (quantizers w) (log w ++ [ev])) = (Ok id, w') →
    id = length (heap w) ∧ quantizers w' = quantizers w
    ∧ ∃ m, repo_get_model c (composed_repo c source) name = Ok m
           ∧ heap w' = heap w ++ [set_training false m]
           ∧ new_events w w' = [ev; E_repo_get_model name; E_eval id]).
  { intros source ev. unfold resolved, new_events.
    destruct (repo_get_model c _ name) as [m|e']; [|done].
    intros [= <- <-]. cbn [heap quantizers log]. split; [done|]. split; [done|].
    exists m. split; [done|]. split; [done|].
    by rewrite <- app_assoc, drop_app_length. }
  destruct repo as [dir|]; cbn zeta.
  - destruct (is_dir c dir) eqn:Hdir; [|done].
    intros (-> & Hq & m & Hm & Hheap & Hev)%Hres.
    split; [done|]. split; [done|]. by exists (inl dir), m.
  - destruct (read_text c _) as [text|] eqn:Hread; [|done].
    destruct (parse_remote_text text) as [models|e'] eqn:Hparse; [|done].
    intros (-> & Hq & m & Hm & Hheap & Hev)%Hres.
    split; [done|]. split; [done|]. exists (inr models), m. eauto 10.
Qed.

Lemma get_model_returns_repository_model_witness :
  (get_model sample_collaborators "abcd1234" (Some "/models") empty_world).1 = Ok 0%nat
  ∧ new_events empty_world
      (get_model sample_collaborators "abcd1234" (Some "/models") empty_world).2
    = [E_is_dir "/models"; E_repo_get_model "abcd1234"; E_eval 0].
Proof.
  destruct (get_model sample_collaborators "abcd1234" (Some "/models") empty_world)
    as [[id|e] w'] eqn:Hrun; [|by vm_compute in Hrun].
  assert (Hname : "abcd1234" ≠ "demucs_unittest") by discriminate.
  destruct (get_model_returns_repository_model _ _ _ _ _ _ Hname Hrun)
    as (-> & _ & [dir|models] & m & _ & _ & Hsrc); [|done].
  destruct Hsrc as (_ & _ & Hev). split; [reflexivity|exact Hev].
Defined.
